(** * AI Overview search page: a model of [main.go] and its properties

    The program is one HTTP handler.  It reads the keyword [q], asks the
    SerpAPI search service for the Google "AI overview" of that keyword
    ([fetchAIOverview], one call or two) and renders an HTML page from the
    answer with [html/template].

    Layout of this file:
    - Go strings as byte strings, and the few [strings]/[html/template]
      helpers the program goes through;
    - the JSON values [search.GetJSON] hands back, and [json.Unmarshal] into
      the structs declared in [main.go];
    - the template [tmpl], as a function from the page data to the page;
    - [fetchAIOverview] and the handler, in a state monad over the calls made
      to the search API and the lines written to the log;
    - the properties. *)

From Stdlib Require Import ZArith Ascii String DecimalString.
From stdpp Require Import base option list strings gmap.

Local Open Scope Z_scope.

(** ** Go strings

    A Go [string] is a sequence of bytes; [string] of 8-bit [ascii] is the
    same thing.  Non-ASCII text (the emoji of the template) is its UTF-8
    bytes. *)

(** The double quote, [U+0022]. *)
Definition dquote : string := String (ascii_of_nat 34) EmptyString.

Definition is_lower (c : ascii) : bool :=
  (97 <=? nat_of_ascii c)%nat && (nat_of_ascii c <=? 122)%nat.
Definition is_upper (c : ascii) : bool :=
  (65 <=? nat_of_ascii c)%nat && (nat_of_ascii c <=? 90)%nat.
Definition is_digit (c : ascii) : bool :=
  (48 <=? nat_of_ascii c)%nat && (nat_of_ascii c <=? 57)%nat.

Definition to_upper (c : ascii) : ascii :=
  if is_lower c then ascii_of_nat (nat_of_ascii c - 32) else c.

(** Simple Unicode case folding, as far as it can reach ASCII text: ASCII
    letters fold to upper case, and the only two other runes whose fold orbit
    holds an ASCII letter are [U+017F] (long s, bytes C5 BF) and [U+212A]
    (Kelvin sign, bytes E2 84 AA).  Every other byte is kept, so a name with
    any other non-ASCII rune never folds to an ASCII name.  This is the
    comparison [encoding/json] uses for object keys and [strings.EqualFold]
    uses for URL schemes, both against ASCII names only in this program. *)
Fixpoint foldName (s : string) : string :=
  match s with
  | EmptyString => EmptyString
  | String "197" (String "191" r) => String "S" (foldName r)
  | String "226" (String "132" (String "170" r)) => String "K" (foldName r)
  | String c r => String (to_upper c) (foldName r)
  end.

Definition EqualFold (s t : string) : bool :=
  bool_decide (foldName s = foldName t).

(** ** JSON values

    [search.GetJSON] returns a [map[string]interface{}]: the response body
    decoded by [encoding/json] into Go's generic representation.  The program
    reads only the entry ["ai_overview"], which it passes through
    [json.Marshal] and then [json.Unmarshal] into a struct.  A generic value
    always marshals (the error of [json.Marshal] is dropped in [main.go] and
    never set), and what [json.Unmarshal] then reads is the value again, the
    members of each object in the order [json.Marshal] writes them (sorted
    by key).  [json] below is that value; the bytes in between are not
    modelled.

    A number is a [float64].  No struct of the program has a float field;
    the only thing read from a number is whether it marshals as an integer
    literal, and which. *)

Inductive number :=
  | Integral (z : Z)
  | NonIntegral.

#[warnings="-register-all"]
Inductive json :=
  | JNull
  | JBool (b : bool)
  | JNumber (n : number)
  | JString (s : string)
  | JArray (items : list json)
  | JObject (members : list (string * json)).

(** ** The structs of [main.go]

    A Go slice is a window on a backing array.  [json.Unmarshal] decodes the
    items of an array into the elements already there, and reaches past the
    length of the slice into its capacity, so the elements behind the window
    are kept: [elems] is the slice as the program sees it ([len], [range]),
    [spare] what its backing array holds after it (zero values from there
    on). *)

Record slice (T : Type) := mkSlice { elems : list T; spare : list T }.
Arguments mkSlice {T} _ _.
Arguments elems {T} _.
Arguments spare {T} _.

(** The [nil] slice, and [len]. *)
Definition nil_slice {T : Type} : slice T := mkSlice [] [].
Definition len {T : Type} (s : slice T) : nat := length (elems s).

Module SearchMetadata.
Record t := mk {
  PageToken : string;     (* json:"page_token" *)
  SerpapiLink : string    (* json:"serpapi_link" *)
}.
Definition zero : t := mk "" "".
End SearchMetadata.

Module ListItem.
Record t := mk {
  Title : string;                 (* json:"title" *)
  Snippet : string;               (* json:"snippet" *)
  ReferenceIndexes : slice Z      (* json:"reference_indexes" *)
}.
Definition zero : t := mk "" "" nil_slice.
End ListItem.

Module TextBlock.
Record t := mk {
  Type_ : string;                          (* json:"type" *)
  Snippet : string;                        (* json:"snippet,omitempty" *)
  SnippetHighlightedWords : slice string;  (* json:"snippet_highlighted_words,omitempty" *)
  ReferenceIndexes : slice Z;              (* json:"reference_indexes,omitempty" *)
  List : slice ListItem.t                  (* json:"list,omitempty" *)
}.
Definition zero : t := mk "" "" nil_slice nil_slice nil_slice.
End TextBlock.

Module Reference.
Record t := mk {
  Title : string;     (* json:"title" *)
  Link : string;      (* json:"link" *)
  Snippet : string;   (* json:"snippet" *)
  Source : string;    (* json:"source" *)
  Index : Z           (* json:"index" *)
}.
Definition zero : t := mk "" "" "" "" 0.
End Reference.

Module AIOverview.
Record t := mk {
  TextBlocks : slice TextBlock.t;   (* json:"text_blocks" *)
  References : slice Reference.t;   (* json:"references" *)
  Error : string                    (* json:"error" *)
}.
Definition zero : t := mk nil_slice nil_slice "".

(** [func (a AIOverview) IsEmpty() bool] *)
Definition IsEmpty (a : t) : bool :=
  (len (TextBlocks a) =? 0)%nat && (len (References a) =? 0)%nat.
End AIOverview.

(** ** [json.Unmarshal]

    [json.Unmarshal(data, &v)] decodes INTO [v]: what the JSON text does not
    mention stays as it was.  Each decoder below takes the value already in
    place and returns the new one, or [None] for the [*json.UnmarshalTypeError]
    that [Unmarshal] reports when a JSON value does not fit the Go type.
    ([Unmarshal] decodes on after a type error and reports the first one at
    the end; [main.go] drops the target whenever the error is set, so the
    model stops at the first.)  No other error can arise: the text comes out
    of [json.Marshal] and is well formed. *)

(** Go [int] is 64 bits wide on the platforms the server runs on. *)
Definition fits_int (z : Z) : bool :=
  (- 2 ^ 63 <=? z) && (z <? 2 ^ 63).

Definition decode_string (old : string) (j : json) : option string :=
  match j with
  | JNull => Some old
  | JString s => Some s
  | _ => None
  end.

Definition decode_int (old : Z) (j : json) : option Z :=
  match j with
  | JNull => Some old
  | JNumber (Integral z) => if fits_int z then Some z else None
  | _ => None
  end.

(** The items of a JSON array, each decoded into the element of the backing
    array at its position ([zero] where the array ends). *)
Fixpoint decode_items {T : Type} (zero : T) (dec : T → json → option T)
    (backing : list T) (items : list json) : option (list T) :=
  match items with
  | [] => Some []
  | j :: items' =>
      x ← dec (hd zero backing) j;
      xs ← decode_items zero dec (tl backing) items';
      Some (x :: xs)
  end.

(** [null] sets a slice to [nil]; the empty array sets it to a new empty
    slice; an array of [n] items decodes them into the first [n] elements of
    the backing array and sets the length to [n]. *)
Definition decode_slice {T : Type} (zero : T) (dec : T → json → option T)
    (old : slice T) (j : json) : option (slice T) :=
  match j with
  | JNull => Some nil_slice
  | JArray [] => Some nil_slice
  | JArray items =>
      let backing := elems old ++ spare old in
      new ← decode_items zero dec backing items;
      Some (mkSlice new (drop (length items) backing))
  | _ => None
  end.

(** A key of a JSON object selects the struct field whose name it equals
    exactly or, failing that, under case folding.  No two fields of one
    struct of [main.go] fold to the same name, so the two searches are one. *)
Definition key_is (name key : string) : bool := EqualFold name key.

(** An object decodes member by member, in order, each into the field its
    key selects; a key that selects no field is skipped.  [null] changes
    nothing.  Anything else is a type error. *)
Definition decode_struct {T : Type} (field : string → json → T → option T)
    (old : T) (j : json) : option T :=
  match j with
  | JNull => Some old
  | JObject members =>
      foldl (λ acc kv, x ← acc; field kv.1 kv.2 x) (Some old) members
  | _ => None
  end.

Definition SearchMetadata_field (k : string) (v : json)
    (x : SearchMetadata.t) : option SearchMetadata.t :=
  let '(SearchMetadata.mk token link) := x in
  if key_is "page_token" k then
    s ← decode_string token v; Some (SearchMetadata.mk s link)
  else if key_is "serpapi_link" k then
    s ← decode_string link v; Some (SearchMetadata.mk token s)
  else Some x.

Definition decode_SearchMetadata :
    SearchMetadata.t → json → option SearchMetadata.t :=
  decode_struct SearchMetadata_field.

Definition ListItem_field (k : string) (v : json)
    (x : ListItem.t) : option ListItem.t :=
  let '(ListItem.mk title snippet idx) := x in
  if key_is "title" k then
    s ← decode_string title v; Some (ListItem.mk s snippet idx)
  else if key_is "snippet" k then
    s ← decode_string snippet v; Some (ListItem.mk title s idx)
  else if key_is "reference_indexes" k then
    l ← decode_slice 0 decode_int idx v; Some (ListItem.mk title snippet l)
  else Some x.

Definition decode_ListItem : ListItem.t → json → option ListItem.t :=
  decode_struct ListItem_field.

Definition TextBlock_field (k : string) (v : json)
    (x : TextBlock.t) : option TextBlock.t :=
  let '(TextBlock.mk type snippet words idx list) := x in
  if key_is "type" k then
    s ← decode_string type v; Some (TextBlock.mk s snippet words idx list)
  else if key_is "snippet" k then
    s ← decode_string snippet v; Some (TextBlock.mk type s words idx list)
  else if key_is "snippet_highlighted_words" k then
    l ← decode_slice "" decode_string words v;
    Some (TextBlock.mk type snippet l idx list)
  else if key_is "reference_indexes" k then
    l ← decode_slice 0 decode_int idx v;
    Some (TextBlock.mk type snippet words l list)
  else if key_is "list" k then
    l ← decode_slice ListItem.zero decode_ListItem list v;
    Some (TextBlock.mk type snippet words idx l)
  else Some x.

Definition decode_TextBlock : TextBlock.t → json → option TextBlock.t :=
  decode_struct TextBlock_field.

Definition Reference_field (k : string) (v : json)
    (x : Reference.t) : option Reference.t :=
  let '(Reference.mk title link snippet source index) := x in
  if key_is "title" k then
    s ← decode_string title v; Some (Reference.mk s link snippet source index)
  else if key_is "link" k then
    s ← decode_string link v; Some (Reference.mk title s snippet source index)
  else if key_is "snippet" k then
    s ← decode_string snippet v; Some (Reference.mk title link s source index)
  else if key_is "source" k then
    s ← decode_string source v; Some (Reference.mk title link snippet s index)
  else if key_is "index" k then
    n ← decode_int index v; Some (Reference.mk title link snippet source n)
  else Some x.

Definition decode_Reference : Reference.t → json → option Reference.t :=
  decode_struct Reference_field.

Definition AIOverview_field (k : string) (v : json)
    (x : AIOverview.t) : option AIOverview.t :=
  let '(AIOverview.mk blocks refs err) := x in
  if key_is "text_blocks" k then
    l ← decode_slice TextBlock.zero decode_TextBlock blocks v;
    Some (AIOverview.mk l refs err)
  else if key_is "references" k then
    l ← decode_slice Reference.zero decode_Reference refs v;
    Some (AIOverview.mk blocks l err)
  else if key_is "error" k then
    s ← decode_string err v; Some (AIOverview.mk blocks refs s)
  else Some x.

Definition decode_AIOverview : AIOverview.t → json → option AIOverview.t :=
  decode_struct AIOverview_field.

(** Concatenation of the pieces a [range] writes. *)
Definition concat_strings (l : list string) : string :=
  foldr String.append EmptyString l.

(** ** [html/template]: the escapers

    [template.Must(template.New("index").Funcs(funcMap).Parse(tmpl))] parses
    [tmpl] once; [html/template] then gives every action an escaper chosen
    by the place of the action in the HTML:
    - in element text ([<p>{{.Snippet}}</p>]): [htmlEscaper];
    - in a quoted plain attribute ([value="{{.Query}}"]): [attrEscaper];
    - in a quoted URL attribute ([href="{{.Link}}"]): [urlFilter], then
      [urlNormalizer], then [attrEscaper].
    The text between the actions is written as it stands in [tmpl] (it has
    no comment and no stray [<] for the package to rewrite).

    The values here are plain strings and one [int], never
    [template.HTML] or [template.URL], so each escaper is its plain-text
    case.  The escapers work rune by rune; the runes they replace are ASCII
    and every other byte is copied, so they are written byte by byte. *)

(** [htmlReplacementTable] *)
Definition htmlReplacement (c : ascii) : option string :=
  match nat_of_ascii c with
  | 0%nat => Some (String (ascii_of_nat 239)
                  (String (ascii_of_nat 191)
                  (String (ascii_of_nat 189) EmptyString)))   (* U+FFFD *)
  | 34%nat => Some "&#34;"     (* double quote *)
  | 38%nat => Some "&amp;"     (* & *)
  | 39%nat => Some "&#39;"     (* single quote *)
  | 43%nat => Some "&#43;"     (* + *)
  | 60%nat => Some "&lt;"      (* < *)
  | 62%nat => Some "&gt;"      (* > *)
  | _ => None
  end.

(** [htmlReplacer(s, htmlReplacementTable, true)] *)
Fixpoint htmlReplacer (s : string) : string :=
  match s with
  | EmptyString => EmptyString
  | String c r =>
      match htmlReplacement c with
      | Some repl => repl +:+ htmlReplacer r
      | None => String c (htmlReplacer r)
      end
  end.

Definition htmlEscaper (s : string) : string := htmlReplacer s.
Definition attrEscaper (s : string) : string := htmlReplacer s.

(** [strings.Cut(s, ":")] and [strings.Contains(s, "/")] *)
Fixpoint Cut_colon (s : string) : option (string * string) :=
  match s with
  | EmptyString => None
  | String c r =>
      if bool_decide (c = ":"%char) then Some (EmptyString, r)
      else '(before, after) ← Cut_colon r; Some (String c before, after)
  end.

Fixpoint Contains_slash (s : string) : bool :=
  match s with
  | EmptyString => false
  | String c r => bool_decide (c = "/"%char) || Contains_slash r
  end.

Definition isSafeURL (s : string) : bool :=
  match Cut_colon s with
  | Some (protocol, _) =>
      if negb (Contains_slash protocol) then
        EqualFold protocol "http" || EqualFold protocol "https"
        || EqualFold protocol "mailto"
      else true
  | None => true
  end.

Definition urlFilter (s : string) : string :=
  if isSafeURL s then s else "#ZgotmplZ".

Definition isHex (c : ascii) : bool :=
  is_digit c
  || ((97 <=? nat_of_ascii c)%nat && (nat_of_ascii c <=? 102)%nat)
  || ((65 <=? nat_of_ascii c)%nat && (nat_of_ascii c <=? 70)%nat).

Definition hex_digit (n : nat) : ascii :=
  if (n <? 10)%nat then ascii_of_nat (48 + n) else ascii_of_nat (87 + n).

(** [fmt.Fprintf(b, "%%%02x", c)] *)
Definition percent_encode (c : ascii) : string :=
  String "%" (String (hex_digit (nat_of_ascii c / 16))
             (String (hex_digit (nat_of_ascii c mod 16)) EmptyString)).

Definition url_reserved : list ascii :=
  ["!"; "#"; "$"; "&"; "*"; "+"; ","; "/"; ":"; ";"; "="; "?"; "@"; "[";
   "]"]%char.
Definition url_unreserved_marks : list ascii := ["-"; "."; "_"; "~"]%char.

(** The bytes [processURLOnto(s, true, b)] copies; it percent-encodes the
    others.  [r] is the rest of the string after [c]. *)
Definition url_kept (c : ascii) (r : string) : bool :=
  bool_decide (c ∈ url_reserved)
  || bool_decide (c ∈ url_unreserved_marks)
  || (bool_decide (c = "%"%char) &&
      match r with
      | String h1 (String h2 _) => isHex h1 && isHex h2
      | _ => false
      end)
  || is_lower c || is_upper c || is_digit c.

Fixpoint urlNormalizer (s : string) : string :=
  match s with
  | EmptyString => EmptyString
  | String c r =>
      if url_kept c r then String c (urlNormalizer r)
      else percent_encode c +:+ urlNormalizer r
  end.

(** [fmt.Sprint] of an [int], for [{{.Index}}]. *)
Definition Sprint_int (n : Z) : string := NilZero.string_of_int (Z.to_int n).

(** ** The template [tmpl]

    The data handed to [tpl.Execute]: the anonymous struct of the handler.
    [AI] is a [*AIOverview]; [None] is the [nil] pointer. *)

Record PageData := mkPageData { Query : string; AI : option AIOverview.t }.

Section Template.

(** [funcMap]: ["title"] is [strings.Title], which maps the first letter
    of each word to its Unicode title case.  The Unicode tables are not
    part of the program; the function is left open. *)
Variable title : string → string.

(** [{{range .List}} ... {{end}}] *)
Definition tmpl_ListItem (it : ListItem.t) : string :=
  ("
						<li><strong>")
  +:+ htmlEscaper (ListItem.Title it) +:+
  ("</strong> — ")
  +:+ htmlEscaper (ListItem.Snippet it) +:+
  ("</li>
					").

(** [{{if .List}} ... {{end}}]: a slice is true when its length is not
    zero. *)
Definition tmpl_List (l : slice ListItem.t) : string :=
  if (0 <? len l)%nat then
    ("
					<ul>
					")
    +:+ concat_strings (tmpl_ListItem <$> elems l) +:+
    ("
					</ul>
				")
  else "".

(** [{{range .AI.TextBlocks}} ... {{end}}] *)
Definition tmpl_TextBlock (b : TextBlock.t) : string :=
  ("
			<div class=" +:+ dquote +:+ "text-block" +:+ dquote +:+ ">
				<strong>")
  +:+ htmlEscaper (title (TextBlock.Type_ b)) +:+
  ("</strong>
				<p>")
  +:+ htmlEscaper (TextBlock.Snippet b) +:+
  ("</p>
				")
  +:+ tmpl_List (TextBlock.List b) +:+
  ("
			</div>
		").

(** [{{range .AI.References}} ... {{end}}] *)
Definition tmpl_Reference (r : Reference.t) : string :=
  ("
			<div class=" +:+ dquote +:+ "text-block" +:+ dquote +:+ ">
			<strong>title: <a href=" +:+ dquote +:+ "")
  +:+ attrEscaper (urlNormalizer (urlFilter (Reference.Link r))) +:+
  ("" +:+ dquote +:+ ">")
  +:+ htmlEscaper (Reference.Title r) +:+
  ("</a></strong>
			<p>Snippet: ")
  +:+ htmlEscaper (Reference.Snippet r) +:+
  ("</p>
			<p>Source: ")
  +:+ htmlEscaper (Reference.Source r) +:+
  ("</p>
			<p>Index: ")
  +:+ htmlEscaper (Sprint_int (Reference.Index r)) +:+
  ("</p>
			</div>
		").

(** [{{if .AI}} ... {{else if .Query}} ... {{end}}]: a pointer is true
    when it is not [nil], a string when it is not empty. *)
Definition tmpl_result (data : PageData) : string :=
  match AI data with
  | Some ai =>
      ("
		<h2>🧠 AI Overview Result</h2>
		")
      +:+ concat_strings (tmpl_TextBlock <$> elems (AIOverview.TextBlocks ai)) +:+
      ("
		<h2>🧠 References</h2>
		")
      +:+ concat_strings (tmpl_Reference <$> elems (AIOverview.References ai)) +:+
      ("
	")
  | None =>
      if bool_decide (Query data ≠ "") then
        ("
		<p><em>No AI Overview found for: ")
        +:+ htmlEscaper (Query data) +:+
        ("</em></p>
	")
      else ""
  end.

(** The whole page. *)
Definition tmpl (data : PageData) : string :=
  ("
<!DOCTYPE html>
<html>
<head>
	<title>AI Overview Search</title>
	<style>
		body { font-family: sans-serif; margin: 2rem auto; max-width: 800px; }
		textarea { width: 100%; }
		.text-block { margin-bottom: 1rem; padding: 1rem; background: #f9f9f9; border-radius: 8px; }
	</style>
</head>
<body>
	<h1>🔍 Google AI Overview via SerpAPI</h1>
	<form method=" +:+ dquote +:+ "GET" +:+ dquote +:+ ">
		<input type=" +:+ dquote +:+ "text" +:+ dquote +:+ " name=" +:+ dquote +:+ "q" +:+ dquote +:+ " placeholder=" +:+ dquote +:+ "Enter a search keyword..." +:+ dquote +:+ " style=" +:+ dquote +:+ "width:80%;" +:+ dquote +:+ " value=" +:+ dquote +:+ "")
  +:+ attrEscaper (Query data) +:+
  ("" +:+ dquote +:+ " required />
		<button type=" +:+ dquote +:+ "submit" +:+ dquote +:+ ">Search</button>
	</form>
	")
  +:+ tmpl_result data +:+
  ("
</body>
</html>
").

End Template.

(** ** The world outside the program

    [fetchAIOverview] talks to the search service through the SerpAPI client
    library: [g.NewGoogleSearch(param, apiKey)] packs the parameters and the
    key, [search.GetJSON()] makes the HTTP call and returns the decoded
    response or an error.  The library and the service are not part of the
    program: a call is recorded, and its answer is whatever the service
    gives.  The program also writes to the log. *)

Record Search := NewGoogleSearch {
  Parameter_ : gmap string string;
  ApiKey : string
}.

(** [SearchResult], [map[string]interface{}]. *)
Abbreviation SearchResult := (gmap string json).

(** A Go [error] of the three kinds [fetchAIOverview] can return. *)
Inductive error :=
  | SearchError (msg : string)   (* returned by [search.GetJSON] *)
  | ErrNotFound                  (* [errors.New("ai overview not found")] *)
  | UnmarshalTypeError.          (* returned by [json.Unmarshal] *)

(** [err.Error()].  The message of a [*json.UnmarshalTypeError] goes on to
    name the JSON value and the Go type; nothing below reads it. *)
Definition Error_string (e : error) : string :=
  match e with
  | SearchError msg => msg
  | ErrNotFound => "ai overview not found"
  | UnmarshalTypeError => "json: cannot unmarshal"
  end.

Record World := mkWorld {
  calls : list Search;     (* the calls made to the search API, oldest first *)
  logged : list string     (* the lines written with package [log] *)
}.

(** A computation runs in a world and either completes with a value or
    panics. *)
Inductive Res (A : Type) :=
  | Done (a : A)
  | Panicked.
Arguments Done {A} _.
Arguments Panicked {A}.

Definition M (A : Type) : Type := World → Res A * World.

Definition ret {A : Type} (a : A) : M A := λ w, (Done a, w).

Definition bind {A B : Type} (m : M A) (k : A → M B) : M B :=
  λ w, match m w with
       | (Done a, w') => k a w'
       | (Panicked, w') => (Panicked, w')
       end.

Definition panic {A : Type} : M A := λ w, (Panicked, w).

Declare Scope go_scope.
Delimit Scope go_scope with go.
Notation "x ⇐ m ; k" := (bind m (λ x, k))
  (at level 100, m at next level, k at level 200, right associativity,
   format "'[v' x  ⇐  m ; '/' k ']'") : go_scope.
Notation "m ;; k" := (bind m (λ _, k))
  (at level 100, k at level 200, right associativity) : go_scope.

(** [log.Print] and [log.Println] (the time stamp of the line is left out). *)
Definition log_Print (line : string) : M unit :=
  λ w, (Done tt, mkWorld (calls w) (logged w ++ [line])).

(** What the handler leaves in its [http.ResponseWriter]. *)
Record Response := mkResponse { StatusCode : nat; Body : string }.

Section Program.

(** [os.Getenv] *)
Variable Getenv : string → string.

(** The answer of the search service to a call, given the calls made
    before it: an error message or a decoded response. *)
Variable serpapi : list Search → Search → string + SearchResult.

(** [strings.Title], see [tmpl]. *)
Variable title : string → string.

(** [search.GetJSON()] *)
Definition GetJSON (search : Search) : M (error + SearchResult) :=
  λ w, (Done match serpapi (calls w) search with
             | inl msg => inl (SearchError msg)
             | inr results => inr results
             end,
        mkWorld (calls w ++ [search]) (logged w)).

(** [json.Unmarshal(jsonBytes, &v)] into a variable just declared. *)
Definition Unmarshal_AIOverview (jsonBytes : json) : option AIOverview.t :=
  decode_AIOverview AIOverview.zero jsonBytes.
Definition Unmarshal_SearchMetadata (jsonBytes : json)
    : option SearchMetadata.t :=
  decode_SearchMetadata SearchMetadata.zero jsonBytes.

(** The parameters of the two calls. *)
Definition primary_param (query : string) : gmap string string :=
  {[ "engine" := "google";
     "q" := query;
     "location" := "Indonesia";
     "google_domain" := "google.com";
     "gl" := "id";
     "hl" := "id" ]}.

Definition secondary_param (page_token : string) : gmap string string :=
  {[ "engine" := "google_ai_overview";
     "page_token" := page_token;
     "hl" := "id";
     "gl" := "id" ]}.

(** [func fetchAIOverview(query string)], of result [*AIOverview] and
    [error].  Each
    [return] of the function gives either [nil] and an error or a pointer
    and [nil]: the result is a sum.  The [fmt.Printf] lines, which print
    the clock and the values in hand on standard output, are left out.

    The function is in two parts here.  [fetch_fallback] is its second
    half, from the comment "fallback to use page_token" to the end: what
    runs when the first [if] does not return. *)
Definition fetch_fallback (apiKey : string) (jsonBytes : json)
    : M (error + AIOverview.t) :=
  (match Unmarshal_SearchMetadata jsonBytes with
   | None => ret (inl UnmarshalTypeError)
   | Some meta =>
   let search :=
     NewGoogleSearch (secondary_param (SearchMetadata.PageToken meta))
                     apiKey in
   r ⇐ GetJSON search;
   match r with
   | inl err => ret (inl err)
   | inr results =>
   (* a key that is missing reads as the nil interface, which marshals
      as null *)
   let aiOverviewRaw := default JNull (results !! "ai_overview") in
   let jsonBytes := aiOverviewRaw in
   match Unmarshal_AIOverview jsonBytes with
   | None => ret (inl UnmarshalTypeError)
   | Some result => ret (inr result)
   end
   end
   end)%go.

Definition fetchAIOverview (query : string) : M (error + AIOverview.t) :=
  (let apiKey := Getenv "api_key" in
   (* Step 1: Try with regular Google search engine *)
   let param := primary_param query in
   let search := NewGoogleSearch param apiKey in
   r ⇐ GetJSON search;
   match r with
   | inl err => ret (inl err)
   | inr results =>
   (* Step 2: Try direct AI Overview *)
   match results !! "ai_overview" with
   | None =>
       log_Print "❌ AI Overview not found for this query";;
       ret (inl ErrNotFound)
   | Some aiOverviewRaw =>
   let jsonBytes := aiOverviewRaw in
   match Unmarshal_AIOverview jsonBytes with
   | Some overview =>
       (* err == nil *)
       if negb (AIOverview.IsEmpty overview) then ret (inr overview)
       else fetch_fallback apiKey jsonBytes
   | None => fetch_fallback apiKey jsonBytes
   end
   end
   end)%go.

(** ** The handler

    [r.URL.Query()] is a [url.Values], a map from a key to its values;
    [Get] gives the first value of the key, or the empty string. *)
Definition Get (v : gmap string (list string)) (key : string) : string :=
  match v !! key with
  | Some (first :: _) => first
  | _ => ""
  end.

(** [p.Error = msg] for a [p *AIOverview]: a store through the pointer,
    which panics with a nil pointer dereference when [p] is [nil]. *)
Definition store_Error (p : option AIOverview.t) (msg : string)
    : M (option AIOverview.t) :=
  match p with
  | None => panic
  | Some a =>
      ret (Some (AIOverview.mk (AIOverview.TextBlocks a)
                               (AIOverview.References a) msg))
  end.

(** [tpl.Execute(w, data)]: the page, or [None] for an error.  Nothing
    in [tmpl] can fail on a [PageData]. *)
Definition Execute (data : PageData) : option string :=
  Some (tmpl title data).

(** The function registered with [http.HandleFunc("/", ...)].  When it
    panics, [net/http] recovers, logs the panic and closes the connection:
    the client gets no response. *)
Definition handler (URL_Query : gmap string (list string)) : M Response :=
  (let query := Get URL_Query "q" in
   let data := mkPageData query None in
   data ⇐ (if bool_decide (query ≠ "") then
             r ⇐ fetchAIOverview query;
             match r with
             | inl err =>
                 log_Print ("❌ " +:+ Error_string err);;
                 ai ⇐ store_Error (AI data) (Error_string err);
                 ret (mkPageData (Query data) ai)
             | inr ai => ret (mkPageData (Query data) (Some ai))
             end
           else ret data);
   match Execute data with
   | Some page => ret (mkResponse 200 page)
   | None =>
       (* http.Error(w, "Error rendering page", http.StatusInternalServerError) *)
       ret (mkResponse 500 "Error rendering page
")
   end)%go.

End Program.

(** ** Vocabulary of the properties *)

(** The two calls [fetchAIOverview] can make, for a key and a query or a
    page token. *)
Definition primary (apiKey query : string) : Search :=
  NewGoogleSearch (primary_param query) apiKey.
Definition secondary (apiKey page_token : string) : Search :=
  NewGoogleSearch (secondary_param page_token) apiKey.

(** The world after the calls [cs], nothing logged. *)
Definition after_calls (w : World) (cs : list Search) : World :=
  mkWorld (calls w ++ cs) (logged w).

(** A JSON value that decodes into a Go [string]. *)
Definition string_or_null (v : json) : Prop :=
  v = JNull ∨ ∃ s, v = JString s.

(** The members of an object that [SearchMetadata] has a field for hold
    strings (or [null]). *)
Definition metadata_typed (members : list (string * json)) : Prop :=
  ∀ k v, (k, v) ∈ members →
    key_is "page_token" k = true ∨ key_is "serpapi_link" k = true →
    string_or_null v.

(** No member of the object is the page token. *)
Definition no_page_token (members : list (string * json)) : Prop :=
  ∀ k v, (k, v) ∈ members → key_is "page_token" k = false.

(** [strings.Contains]: [sub] occurs in [s]. *)
Fixpoint Contains (s sub : string) : bool :=
  String.prefix sub s
  || match s with
     | EmptyString => false
     | String _ r => Contains r sub
     end.

(** The characters that open or close a tag or a quoted attribute value:
    [<], [>], the double quote and the single quote. *)
Definition is_markup (c : ascii) : bool :=
  bool_decide (nat_of_ascii c ∈ [60; 62; 34; 39]%nat).

(** The markup characters of a text, in order. *)
Fixpoint markup (s : string) : list ascii :=
  match s with
  | EmptyString => []
  | String c r => if is_markup c then c :: markup r else markup r
  end.

(** The shape of the page data: whether there is a query, whether there is
    an overview, how many text blocks it has and how many list items each,
    and how many references.  The texts themselves are left out. *)
Definition shape_AIOverview (a : AIOverview.t) : list nat * nat :=
  ((λ b, len (TextBlock.List b)) <$> elems (AIOverview.TextBlocks a),
   len (AIOverview.References a)).

Definition shape (data : PageData) : bool * option (list nat * nat) :=
  (bool_decide (Query data ≠ ""), shape_AIOverview <$> AI data).

(** No member of the object is one of the two lists of an overview. *)
Definition no_overview_members (members : list (string * json)) : Prop :=
  ∀ k v, (k, v) ∈ members →
    key_is "text_blocks" k = false ∧ key_is "references" k = false.

(** The number of items of the last member of the object that goes by
    [name] (in any letter case), zero when that member is not an array or
    when there is none. *)
Definition final_length (name : string) (members : list (string * json))
    : nat :=
  foldl (λ n kv,
           if key_is name kv.1 then
             match kv.2 with
             | JArray items => length items
             | _ => 0%nat
             end
           else n)
        0%nat members.

(** [strings.HasPrefix] *)
Fixpoint HasPrefix (s prefix : string) {struct prefix} : bool :=
  match prefix with
  | EmptyString => true
  | String a p =>
      match s with
      | EmptyString => false
      | String c r => Ascii.eqb a c && HasPrefix r p
      end
  end.

(** The number of places of [s] at which [sub] starts.  For a [sub] that
    cannot overlap itself, such as a tag, this is [strings.Count]. *)
Fixpoint occurrences (sub s : string) : nat :=
  ((if HasPrefix s sub then 1 else 0)
   + match s with
     | EmptyString => 0
     | String _ r => occurrences sub r
     end)%nat.

(** [t] is the beginning of [pat] and stops short of its end. *)
Definition cut_short (t pat : string) : bool :=
  HasPrefix pat t && (String.length t <? String.length pat)%nat.

(** No place of [s] starts an occurrence of [pat] that the end of [s] cuts
    short: whatever text follows [s], it starts no occurrence inside [s]. *)
Fixpoint settled (pat s : string) : bool :=
  match s with
  | EmptyString => true
  | String _ r => negb (cut_short s pat) && settled pat r
  end.

(** The tags counted below. *)
Definition tag_div : string :=
  "<div class=" +:+ dquote +:+ "text-block" +:+ dquote +:+ ">".
Definition tag_a : string := "<a href=" +:+ dquote.

(** ** Sample requests and answers

    A process environment with a key, a service that gives scripted answers
    (the n-th call gets the n-th answer, and the connection fails once the
    script is over), and a few payloads. *)

Definition sample_Getenv (name : string) : string :=
  if bool_decide (name = "api_key") then "secret" else "".

Definition scripted (answers : list (string + SearchResult))
    : list Search → Search → string + SearchResult :=
  λ history _, default (inl "connection refused") (answers !! length history).

Definition world0 : World := mkWorld [] [].

(** [GET /?q=golang] and [GET /]. *)
Definition golang_request : gmap string (list string) :=
  {[ "q" := ["golang"] ]}.
Definition bare_request : gmap string (list string) := ∅.

(** [strings.Title] on ASCII text: the first letter of each word in upper
    case, a word being a run of letters, digits and underscores. *)
Definition isSeparator (c : ascii) : bool :=
  negb (is_digit c || is_lower c || is_upper c || bool_decide (c = "_"%char)).

Fixpoint Title_from (prev : ascii) (s : string) : string :=
  match s with
  | EmptyString => EmptyString
  | String c r =>
      String (if isSeparator prev then to_upper c else c) (Title_from c r)
  end.

Definition Title_ascii (s : string) : string := Title_from " " s.

(** A response with the overview inline: one paragraph, one reference. *)
Definition inline_raw : json :=
  JObject
    [("references",
      JArray [JObject [("index", JNumber (Integral 0));
                       ("link", JString "https://go.dev/");
                       ("source", JString "go.dev");
                       ("title", JString "The Go Programming Language")]]);
     ("text_blocks",
      JArray [JObject [("snippet", JString "Go is a programming language.");
                       ("type", JString "paragraph")]])].

Definition inline_overview : AIOverview.t :=
  AIOverview.mk
    (mkSlice [TextBlock.mk "paragraph" "Go is a programming language."
                nil_slice nil_slice nil_slice] [])
    (mkSlice [Reference.mk "The Go Programming Language" "https://go.dev/"
                "" "go.dev" 0] [])
    "".

Definition inline_response : SearchResult :=
  {[ "ai_overview" := inline_raw ]}.

(** A response that defers the overview to a second call. *)
Definition token_raw : json :=
  JObject [("page_token", JString "tok");
           ("serpapi_link", JString "https://serpapi.com/search.json")].
Definition token_response : SearchResult := {[ "ai_overview" := token_raw ]}.

(** Responses with no overview at all, and with an overview with nothing in
    it. *)
Definition bare_response : SearchResult :=
  {[ "search_metadata" := JObject [("status", JString "Success")] ]}.
Definition hollow_response : SearchResult :=
  {[ "ai_overview" := JObject [] ]}.

(** Payloads that are not what the service documents: a string, a page
    token that is a number, a link that is a number. *)
Definition text_raw : json := JString "pending".
Definition numeric_token_raw : json :=
  JObject [("page_token", JNumber (Integral 5))].
Definition numeric_link_raw : json :=
  JObject [("serpapi_link", JNumber (Integral 5))].

(** Page data whose every text tries to be markup, and data of the same
    shape with plain words. *)
Definition script_overview : AIOverview.t :=
  AIOverview.mk
    (mkSlice
       [TextBlock.mk "<script>" "<script>alert(1)</script>"
          nil_slice nil_slice
          (mkSlice [ListItem.mk "<b onclick='x()'>" "</li><script>"
                      nil_slice] [])] [])
    (mkSlice [Reference.mk "</a><script>" "javascript:alert(1)"
                "<img src=x>" "<script src='//evil'>" 7] [])
    "".
Definition script_page : PageData :=
  mkPageData ("<script>" +:+ dquote +:+ " onfocus=alert(1)")
             (Some script_overview).

Definition plain_overview : AIOverview.t :=
  AIOverview.mk
    (mkSlice
       [TextBlock.mk "list" "Some points" nil_slice nil_slice
          (mkSlice [ListItem.mk "First" "a point" nil_slice] [])] [])
    (mkSlice [Reference.mk "Go" "https://go.dev/" "about Go" "go.dev" 1] [])
    "".
Definition plain_page : PageData := mkPageData "golang" (Some plain_overview).

(** An object that names its lists twice, in two letter cases: the later
    member is the one that counts. *)
Definition repeated_members : list (string * json) :=
  [("TEXT_BLOCKS", JArray [JObject []; JObject []]);
   ("references", JArray [JObject []]);
   ("text_blocks", JArray [JObject [("type", JString "paragraph")]]);
   ("References", JNull)].

(** The members of [token_raw] after the page token. *)
Definition token_raw_rest : list (string * json) :=
  [("serpapi_link", JString "https://serpapi.com/search.json")].

(** ** Properties of [fetchAIOverview] *)

Section FetchProperties.

Variable Getenv : string → string.
Variable serpapi : list Search → Search → string + SearchResult.

Local Abbreviation fetch := (fetchAIOverview Getenv serpapi).
Local Abbreviation apiKey := (Getenv "api_key").

Ltac run_fetch :=
  unfold fetchAIOverview, fetch_fallback, GetJSON, bind, ret, log_Print,
    after_calls, primary, secondary; simpl.

(** The first attempt is given up exactly when the payload does not decode
    or decodes to an empty overview; the rest of the function then runs. *)
Lemma fetch_falls_back query w results raw :
  serpapi (calls w) (primary apiKey query) = inr results →
  results !! "ai_overview" = Some raw →
  (∀ overview, Unmarshal_AIOverview raw = Some overview →
               AIOverview.IsEmpty overview = true) →
  fetch query w =
    fetch_fallback serpapi apiKey raw (after_calls w [primary apiKey query]).
Proof.
  intros Hcall Hraw Hfirst. run_fetch.
  unfold primary in Hcall. rewrite Hcall, Hraw.
  destruct (Unmarshal_AIOverview raw) as [overview|] eqn:Hdec; [|done].
  by rewrite (Hfirst overview eq_refl).
Qed.

(** The fallback, when the payload decodes as metadata: one call, and the
    result read from its answer. *)
Lemma fetch_fallback_run raw meta w :
  Unmarshal_SearchMetadata raw = Some meta →
  fetch_fallback serpapi apiKey raw w =
    (Done match serpapi (calls w)
                  (secondary apiKey (SearchMetadata.PageToken meta)) with
          | inl msg => inl (SearchError msg)
          | inr results =>
              match Unmarshal_AIOverview
                      (default JNull (results !! "ai_overview")) with
              | Some result => inr result
              | None => inl UnmarshalTypeError
              end
          end,
     after_calls w [secondary apiKey (SearchMetadata.PageToken meta)]).
Proof.
  intros Hmeta. run_fetch. rewrite Hmeta.
  destruct (serpapi _ _) as [msg|results]; [done|].
  by destruct (Unmarshal_AIOverview _).
Qed.

Lemma after_calls_app w cs1 cs2 :
  after_calls (after_calls w cs1) cs2 = after_calls w (cs1 ++ cs2).
Proof. unfold after_calls; simpl. by rewrite <- (assoc_L (++)). Qed.

Lemma IsEmpty_false (a : AIOverview.t) :
  (0 < len (AIOverview.TextBlocks a) ∨ 0 < len (AIOverview.References a))%nat →
  AIOverview.IsEmpty a = false.
Proof.
  unfold AIOverview.IsEmpty. intros [H|H].
  - destruct (len (AIOverview.TextBlocks a)); [lia|done].
  - destruct (len (AIOverview.References a)); [lia|].
    by rewrite andb_false_r.
Qed.

Lemma IsEmpty_true (a : AIOverview.t) :
  len (AIOverview.TextBlocks a) = 0%nat →
  len (AIOverview.References a) = 0%nat →
  AIOverview.IsEmpty a = true.
Proof. unfold AIOverview.IsEmpty. by intros -> ->. Qed.

(** The parameters of the two calls, read back. *)
Lemma secondary_param_lookup page_token :
  secondary_param page_token !! "engine" = Some "google_ai_overview"
  ∧ secondary_param page_token !! "page_token" = Some page_token
  ∧ secondary_param page_token !! "hl" = Some "id"
  ∧ secondary_param page_token !! "gl" = Some "id".
Proof. unfold secondary_param. by simplify_map_eq. Qed.

Lemma primary_param_lookup query :
  primary_param query !! "engine" = Some "google"
  ∧ primary_param query !! "q" = Some query
  ∧ primary_param query !! "location" = Some "Indonesia"
  ∧ primary_param query !! "google_domain" = Some "google.com"
  ∧ primary_param query !! "gl" = Some "id"
  ∧ primary_param query !! "hl" = Some "id".
Proof. unfold primary_param. by simplify_map_eq. Qed.

(** The fetch fails with the not-found error when the primary response
    has no "ai_overview" entry. *)
Lemma fetch_not_found query w results :
  serpapi (calls w) (primary apiKey query) = inr results →
  results !! "ai_overview" = None →
  fetch query w =
    (Done (inl ErrNotFound),
     mkWorld (calls w ++ [primary apiKey query])
             (logged w ++ ["❌ AI Overview not found for this query"])).
Proof.
  intros Hcall Hnone. run_fetch.
  unfold primary in Hcall. by rewrite Hcall, Hnone.
Qed.

(** The fetch fails with the error of the primary call when that call
    fails. *)
Lemma fetch_primary_error query w msg :
  serpapi (calls w) (primary apiKey query) = inl msg →
  fetch query w =
    (Done (inl (SearchError msg)), after_calls w [primary apiKey query]).
Proof.
  intros Hcall. run_fetch. unfold primary in Hcall. by rewrite Hcall.
Qed.

(** C3. When the "ai_overview" entry of the primary response decodes to an
    overview with at least one text block or at least one reference,
    [fetchAIOverview] returns that overview, and the primary call is the
    only call it has made. *)
Theorem fetch_inline_overview query w results raw overview :
  query ≠ "" →
  serpapi (calls w) (primary apiKey query) = inr results →
  results !! "ai_overview" = Some raw →
  Unmarshal_AIOverview raw = Some overview →
  (0 < len (AIOverview.TextBlocks overview)
   ∨ 0 < len (AIOverview.References overview))%nat →
  fetch query w = (Done (inr overview), after_calls w [primary apiKey query]).
Proof.
  intros _ Hcall Hraw Hdec Hfull. run_fetch.
  unfold primary in Hcall. rewrite Hcall, Hraw, Hdec.
  by rewrite (IsEmpty_false _ Hfull).
Qed.

(** C5. When the "ai_overview" entry of the primary response fails the
    first check (it does not decode as an overview, or decodes to an empty
    one) and does not decode as metadata either, [fetchAIOverview] fails
    with the decode error, and the primary call is the only call it has
    made. *)
Theorem fetch_metadata_decode_error query w results raw :
  serpapi (calls w) (primary apiKey query) = inr results →
  results !! "ai_overview" = Some raw →
  (Unmarshal_AIOverview raw = None
   ∨ ∃ overview, Unmarshal_AIOverview raw = Some overview
                 ∧ AIOverview.IsEmpty overview = true) →
  Unmarshal_SearchMetadata raw = None →
  fetch query w =
    (Done (inl UnmarshalTypeError), after_calls w [primary apiKey query]).
Proof.
  intros Hcall Hraw Hfirst Hmeta.
  rewrite (fetch_falls_back _ _ _ _ Hcall Hraw).
  - unfold fetch_fallback. by rewrite Hmeta.
  - intros overview Hdec. destruct Hfirst as [Hnone|(o & Ho & Hempty)];
      congruence.
Qed.

(** C2, as amended.  When the "ai_overview" entry of the primary response
    decodes to an overview with no text block and no reference, and also
    decodes as metadata, [fetchAIOverview] makes exactly one more call,
    with engine "google_ai_overview" and the page token of the metadata;
    when that call succeeds and the "ai_overview" entry of its response
    decodes, the decoded overview is the result, empty or not. *)
Theorem fetch_empty_overview_second_call
    query w results raw overview meta :
  query ≠ "" →
  serpapi (calls w) (primary apiKey query) = inr results →
  results !! "ai_overview" = Some raw →
  Unmarshal_AIOverview raw = Some overview →
  len (AIOverview.TextBlocks overview) = 0%nat →
  len (AIOverview.References overview) = 0%nat →
  Unmarshal_SearchMetadata raw = Some meta →
  Parameter_ (secondary apiKey (SearchMetadata.PageToken meta)) !! "engine"
    = Some "google_ai_overview"
  ∧ Parameter_ (secondary apiKey (SearchMetadata.PageToken meta))
      !! "page_token" = Some (SearchMetadata.PageToken meta)
  ∧ calls (fetch query w).2 =
      calls w ++ [primary apiKey query;
                  secondary apiKey (SearchMetadata.PageToken meta)]
  ∧ ∀ results2 result,
      serpapi (calls w ++ [primary apiKey query])
              (secondary apiKey (SearchMetadata.PageToken meta))
        = inr results2 →
      Unmarshal_AIOverview (default JNull (results2 !! "ai_overview"))
        = Some result →
      (fetch query w).1 = Done (inr result).
Proof.
  intros _ Hcall Hraw Hdec Hblocks Hrefs Hmeta.
  pose proof (secondary_param_lookup (SearchMetadata.PageToken meta))
    as (Hengine & Htoken & _).
  rewrite (fetch_falls_back _ _ _ _ Hcall Hraw),
    (fetch_fallback_run _ _ _ Hmeta), after_calls_app; simpl.
  - repeat split; [done..|].
    intros results2 result Hcall2 Hdec2. by rewrite Hcall2, Hdec2.
  - intros o Ho. assert (o = overview) as -> by congruence.
    by apply IsEmpty_true.
Qed.

(** C9. When the second call succeeds and its response has no
    "ai_overview" entry, [fetchAIOverview] does not fail: the missing
    entry reads as [null], [null] decodes to the overview with no text
    block and no reference, and that overview is the result. *)
Theorem fetch_second_response_without_overview
    query w results raw meta results2 :
  serpapi (calls w) (primary apiKey query) = inr results →
  results !! "ai_overview" = Some raw →
  (∀ overview, Unmarshal_AIOverview raw = Some overview →
               AIOverview.IsEmpty overview = true) →
  Unmarshal_SearchMetadata raw = Some meta →
  serpapi (calls w ++ [primary apiKey query])
          (secondary apiKey (SearchMetadata.PageToken meta)) = inr results2 →
  results2 !! "ai_overview" = None →
  fetch query w =
    (Done (inr (AIOverview.mk nil_slice nil_slice "")),
     after_calls w [primary apiKey query;
                    secondary apiKey (SearchMetadata.PageToken meta)]).
Proof.
  intros Hcall Hraw Hfirst Hmeta Hcall2 Hnone.
  rewrite (fetch_falls_back _ _ _ _ Hcall Hraw Hfirst),
    (fetch_fallback_run _ _ _ Hmeta), after_calls_app; simpl.
  by rewrite Hcall2, Hnone.
Qed.

(** C8. Whatever the query and the answers of the service,
    [fetchAIOverview] first calls the API with engine "google", the query,
    and the fixed location, domain, country and language; if it calls the
    API again it does so once, with engine "google_ai_overview", the page
    token decoded from the "ai_overview" entry of the first response, and
    the fixed language and country. *)
Theorem fetch_calls query w :
  ∃ rest,
    calls (fetch query w).2 =
      calls w ++
      NewGoogleSearch {[ "engine" := "google";
                         "q" := query;
                         "location" := "Indonesia";
                         "google_domain" := "google.com";
                         "gl" := "id";
                         "hl" := "id" ]} apiKey :: rest
    ∧ (rest = []
       ∨ ∃ results raw meta,
           serpapi (calls w) (primary apiKey query) = inr results
           ∧ results !! "ai_overview" = Some raw
           ∧ Unmarshal_SearchMetadata raw = Some meta
           ∧ rest = [NewGoogleSearch
                       {[ "engine" := "google_ai_overview";
                          "page_token" := SearchMetadata.PageToken meta;
                          "hl" := "id";
                          "gl" := "id" ]} apiKey]).
Proof.
  run_fetch. fold (primary_param query). fold (primary apiKey query).
  destruct (serpapi (calls w) (primary apiKey query))
    as [msg|results] eqn:Hcall; simpl; [by eexists; split; [|left]|].
  destruct (results !! "ai_overview") as [raw|] eqn:Hraw;
    simpl; [|by eexists; split; [|left]].
  assert (∃ rest,
    calls (fetch_fallback serpapi apiKey raw
             (after_calls w [primary apiKey query])).2
      = calls w ++ primary apiKey query :: rest
    ∧ (rest = []
       ∨ ∃ results0 raw0 meta,
           (inr results : string + SearchResult) = inr results0
           ∧ results0 !! "ai_overview" = Some raw0
           ∧ Unmarshal_SearchMetadata raw0 = Some meta
           ∧ rest = [secondary apiKey (SearchMetadata.PageToken meta)]))
    as (rest & Hrest & Hcase).
  { destruct (Unmarshal_SearchMetadata raw) as [meta|] eqn:Hmeta.
    - rewrite (fetch_fallback_run _ _ _ Hmeta), after_calls_app. simpl.
      eexists; split; [done|]. right. by exists results, raw, meta.
    - unfold fetch_fallback. rewrite Hmeta. simpl.
      eexists; split; [done|]. by left. }
  destruct (Unmarshal_AIOverview raw) as [overview|]; simpl;
    [destruct (AIOverview.IsEmpty overview); simpl|].
  - exists rest. split; [exact Hrest|exact Hcase].
  - exists []. split; [done|by left].
  - exists rest. split; [exact Hrest|exact Hcase].
Qed.

Lemma decode_string_typed old v :
  string_or_null v → ∃ s, decode_string old v = Some s.
Proof. intros [->|[s ->]]; simpl; eauto. Qed.

(** An object whose metadata members are strings decodes, and the token
    stays as it was when no member is the page token. *)
Lemma decode_SearchMetadata_members members acc :
  metadata_typed members →
  ∃ meta,
    foldl (λ acc kv, x ← acc; SearchMetadata_field kv.1 kv.2 x)
          (Some acc) members = Some meta
    ∧ (no_page_token members →
       SearchMetadata.PageToken meta = SearchMetadata.PageToken acc).
Proof.
  revert acc. induction members as [|[k v] members IH]; intros acc Htyped.
  { exists acc. by split. }
  assert (metadata_typed members) as Htyped'.
  { intros k' v' Hin. apply (Htyped k' v'). by right. }
  assert (∃ acc',
    SearchMetadata_field k v acc = Some acc'
    ∧ (key_is "page_token" k = false →
       SearchMetadata.PageToken acc' = SearchMetadata.PageToken acc))
    as (acc' & Hstep & Htoken).
  { destruct acc as [token link]. unfold SearchMetadata_field.
    destruct (key_is "page_token" k) eqn:Hpt.
    - destruct (decode_string_typed token v) as [s ->].
      { apply (Htyped k v); [by left|by left]. }
      eexists; split; [done|]. intros; discriminate.
    - destruct (key_is "serpapi_link" k) eqn:Hlink.
      + destruct (decode_string_typed link v) as [s ->].
        { apply (Htyped k v); [by left|by right]. }
        by eexists.
      + by eexists. }
  destruct (IH acc' Htyped') as (meta & Hfold & Hmeta).
  exists meta. simpl. rewrite Hstep. split; [done|].
  intros Hno. rewrite Hmeta, Htoken; [done| |].
  - apply (Hno k v). by left.
  - intros k' v' Hin. apply (Hno k' v'). by right.
Qed.

(** C10, as amended.  A JSON object decodes as metadata whenever the
    members that [SearchMetadata] has a field for ("page_token" and
    "serpapi_link", in any letter case) hold strings or [null].  When such
    an object has no "page_token" member the token is the empty string:
    if it is the "ai_overview" entry of the primary response and fails the
    first check, [fetchAIOverview] does not stop with a decode error but
    makes the second call, with an empty "page_token" parameter, and
    returns what that call gives. *)
Theorem fetch_without_page_token members :
  metadata_typed members →
  ∃ meta,
    Unmarshal_SearchMetadata (JObject members) = Some meta
    ∧ (no_page_token members →
       SearchMetadata.PageToken meta = ""
       ∧ Parameter_ (secondary apiKey "") !! "page_token" = Some ""
       ∧ ∀ query w results,
           serpapi (calls w) (primary apiKey query) = inr results →
           results !! "ai_overview" = Some (JObject members) →
           (∀ overview,
              Unmarshal_AIOverview (JObject members) = Some overview →
              AIOverview.IsEmpty overview = true) →
           fetch query w =
             (Done match serpapi (calls w ++ [primary apiKey query])
                           (secondary apiKey "") with
                   | inl msg => inl (SearchError msg)
                   | inr results2 =>
                       match Unmarshal_AIOverview
                               (default JNull (results2 !! "ai_overview"))
                       with
                       | Some result => inr result
                       | None => inl UnmarshalTypeError
                       end
                   end,
              after_calls w [primary apiKey query; secondary apiKey ""])).
Proof.
  intros Htyped.
  destruct (decode_SearchMetadata_members members SearchMetadata.zero Htyped)
    as (meta & Hdec & Htoken).
  change (Unmarshal_SearchMetadata (JObject members) = Some meta) in Hdec.
  exists meta. split; [exact Hdec|].
  intros Hno. specialize (Htoken Hno). simpl in Htoken.
  split; [done|]. split; [apply secondary_param_lookup|].
  intros query w results Hcall Hraw Hfirst.
  rewrite (fetch_falls_back _ _ _ _ Hcall Hraw Hfirst),
    (fetch_fallback_run _ _ _ Hdec), after_calls_app, Htoken.
  done.
Qed.

End FetchProperties.

(** ** Properties of the handler *)

Section HandlerProperties.

Variable Getenv : string → string.
Variable serpapi : list Search → Search → string + SearchResult.
Variable title : string → string.

Local Abbreviation fetch := (fetchAIOverview Getenv serpapi).
Local Abbreviation handle := (handler Getenv serpapi title).

(** A key that is absent reads as the empty string. *)
Lemma Get_absent (v : gmap string (list string)) key :
  v !! key = None → Get v key = "".
Proof. unfold Get. by intros ->. Qed.

(** When the fetch fails, the handler logs the error and then stores its
    message through [data.AI], which is still [nil]: it panics before the
    template is executed. *)
Lemma handler_fetch_error URL_Query w err w' :
  Get URL_Query "q" ≠ "" →
  fetch (Get URL_Query "q") w = (Done (inl err), w') →
  handle URL_Query w =
    (Panicked,
     mkWorld (calls w') (logged w' ++ ["❌ " +:+ Error_string err])).
Proof.
  intros Hq Hfetch. unfold handler, bind.
  rewrite bool_decide_eq_true_2 by done.
  by rewrite Hfetch.
Qed.

(** When the fetch succeeds, the page is rendered from its result. *)
Lemma handler_fetch_ok URL_Query w ai w' :
  Get URL_Query "q" ≠ "" →
  fetch (Get URL_Query "q") w = (Done (inr ai), w') →
  handle URL_Query w =
    (Done (mkResponse 200
             (tmpl title (mkPageData (Get URL_Query "q") (Some ai)))), w').
Proof.
  intros Hq Hfetch. unfold handler, bind.
  rewrite bool_decide_eq_true_2 by done.
  by rewrite Hfetch.
Qed.

(** The handler never answers 500: executing [tmpl] cannot fail. *)
Lemma handler_status URL_Query w response w' :
  handle URL_Query w = (Done response, w') → StatusCode response = 200%nat.
Proof.
  unfold handler, bind, ret, Execute.
  destruct (bool_decide _); [|by intros [= <- _]].
  destruct (fetch _ w) as [[[err|ai]|] w1]; simpl; [|by intros [= <- _]|done].
  unfold log_Print, panic; simpl. done.
Qed.

(** C7. When the request has no "q" parameter, or an empty one, the
    handler does not call [fetchAIOverview] (the world is as before: no
    call, no log line) and answers 200 with a page that has the form and
    has neither the "No AI Overview found" message nor any of the markup
    of an overview. *)
Theorem handler_empty_query URL_Query w :
  Get URL_Query "q" = "" →
  ∃ page,
    handle URL_Query w = (Done (mkResponse 200 page), w)
    ∧ Contains page ("<form method=" +:+ dquote +:+ "GET" +:+ dquote +:+ ">")
      = true
    ∧ Contains page ("<input type=" +:+ dquote +:+ "text" +:+ dquote
                     +:+ " name=" +:+ dquote +:+ "q" +:+ dquote) = true
    ∧ Contains page "</form>" = true
    ∧ Contains page "No AI Overview found" = false
    ∧ Contains page "AI Overview Result" = false
    ∧ Contains page "References" = false
    ∧ Contains page "<h2>" = false
    ∧ Contains page "<div" = false.
Proof.
  intros Hq. eexists. split.
  - unfold handler, bind, ret, Execute. rewrite Hq. simpl. reflexivity.
  - unfold tmpl, tmpl_result. simpl. by vm_compute.
Qed.

End HandlerProperties.

(** ** Properties of the template *)

Lemma markup_app (a b : string) : markup (a +:+ b) = markup a ++ markup b.
Proof.
  induction a as [|c a IH]; simpl; [done|].
  destruct (is_markup c); simpl; by rewrite IH.
Qed.

(** A character the escaper replaces is replaced by text with no markup
    character; a character it keeps is not a markup character. *)
Lemma htmlReplacement_markup (c : ascii) :
  match htmlReplacement c with
  | Some repl => markup repl = []
  | None => is_markup c = false
  end.
Proof. destruct c as [[] [] [] [] [] [] [] []]; by vm_compute. Qed.

(** Escaped text has no markup character. *)
Lemma htmlReplacer_markup (s : string) : markup (htmlReplacer s) = [].
Proof.
  induction s as [|c s IH]; simpl; [done|].
  pose proof (htmlReplacement_markup c) as Hc.
  destruct (htmlReplacement c) as [repl|].
  - by rewrite markup_app, Hc, IH.
  - simpl. by rewrite Hc.
Qed.

(** What a [range] writes has the markup characters of its pieces. *)
Lemma markup_range {A B : Type} (f : A → string) (g : B → string) l1 l2 :
  Forall2 (λ x y, markup (f x) = markup (g y)) l1 l2 →
  markup (concat_strings (f <$> l1)) = markup (concat_strings (g <$> l2)).
Proof.
  induction 1 as [|x y l1 l2 Hxy _ IH]; [done|].
  rewrite !fmap_cons.
  change (markup (f x +:+ concat_strings (f <$> l1))
          = markup (g y +:+ concat_strings (g <$> l2))).
  by rewrite !markup_app, Hxy, IH.
Qed.

Section TemplateProperties.

Variable title : string → string.

Ltac markup_norm :=
  unfold htmlEscaper, attrEscaper;
  rewrite ?markup_app, ?htmlReplacer_markup.

Lemma tmpl_ListItem_markup it1 it2 :
  markup (tmpl_ListItem it1) = markup (tmpl_ListItem it2).
Proof. unfold tmpl_ListItem. by markup_norm. Qed.

Lemma tmpl_List_markup (l1 l2 : slice ListItem.t) :
  len l1 = len l2 → markup (tmpl_List l1) = markup (tmpl_List l2).
Proof.
  intros Hlen. unfold tmpl_List. rewrite Hlen.
  destruct (0 <? len l2)%nat; [|done]. markup_norm.
  do 2 f_equal. apply markup_range, Forall2_same_length_lookup_2.
  - exact Hlen.
  - intros. apply tmpl_ListItem_markup.
Qed.

Lemma tmpl_TextBlock_markup b1 b2 :
  len (TextBlock.List b1) = len (TextBlock.List b2) →
  markup (tmpl_TextBlock title b1) = markup (tmpl_TextBlock title b2).
Proof.
  intros Hlen. unfold tmpl_TextBlock. markup_norm.
  by rewrite (tmpl_List_markup _ _ Hlen).
Qed.

Lemma tmpl_Reference_markup r1 r2 :
  markup (tmpl_Reference r1) = markup (tmpl_Reference r2).
Proof. unfold tmpl_Reference. by markup_norm. Qed.

Lemma tmpl_TextBlocks_markup (bs1 bs2 : list TextBlock.t) :
  (λ b, len (TextBlock.List b)) <$> bs1
    = (λ b, len (TextBlock.List b)) <$> bs2 →
  markup (concat_strings (tmpl_TextBlock title <$> bs1))
    = markup (concat_strings (tmpl_TextBlock title <$> bs2)).
Proof.
  intros Hshape. apply markup_range.
  revert bs2 Hshape. induction bs1 as [|b1 bs1 IH]; intros [|b2 bs2] Hshape;
    rewrite ?fmap_cons in Hshape; try discriminate; [constructor|].
  injection Hshape as Hb Hrest.
  constructor; [by apply tmpl_TextBlock_markup|by apply IH].
Qed.

Lemma tmpl_result_markup data1 data2 :
  shape data1 = shape data2 →
  markup (tmpl_result title data1) = markup (tmpl_result title data2).
Proof.
  destruct data1 as [q1 ai1], data2 as [q2 ai2].
  unfold shape, tmpl_result. cbn [Query AI]. intros Hshape.
  injection Hshape as Hq Hai.
  destruct ai1 as [a1|], ai2 as [a2|]; try discriminate.
  - injection Hai as Hblocks Hrefs. markup_norm.
    rewrite (tmpl_TextBlocks_markup _ _ Hblocks).
    rewrite (markup_range tmpl_Reference tmpl_Reference
               (elems (AIOverview.References a1))
               (elems (AIOverview.References a2))); [done|].
    apply Forall2_same_length_lookup_2; [exact Hrefs|].
    intros. apply tmpl_Reference_markup.
  - rewrite Hq. destruct (bool_decide (q2 ≠ "")); [|done]. by markup_norm.
Qed.

(** C6. The markup characters of the page ([<], [>] and the two quotes)
    are those of the template: two pages rendered from data of the same
    shape have the same markup characters in the same order, whatever the
    query, the types, snippets, titles, sources, links and indexes are.
    Every text value goes through the escaper, and no text value can open
    or close a tag or end an attribute value. *)
Theorem tmpl_markup_from_template data1 data2 :
  shape data1 = shape data2 →
  markup (tmpl title data1) = markup (tmpl title data2).
Proof.
  intros Hshape. unfold tmpl. markup_norm.
  by rewrite (tmpl_result_markup _ _ Hshape).
Qed.

End TemplateProperties.

(** ** Sample runs *)

(** The escaper on a script element. *)
Example htmlEscaper_script :
  htmlEscaper "<script>alert('x')</script>"
  = "&lt;script&gt;alert(&#39;x&#39;)&lt;/script&gt;".
Proof. reflexivity. Qed.

(** The page for data whose every text tries to be markup: no script tag
    comes out, the texts are there as character references, and a
    [javascript:] link is replaced. *)
Example tmpl_script_is_text :
  Contains (tmpl Title_ascii script_page) "<script" = false
  ∧ Contains (tmpl Title_ascii script_page) "<img" = false
  ∧ Contains (tmpl Title_ascii script_page)
      "<p>&lt;script&gt;alert(1)&lt;/script&gt;</p>" = true
  ∧ Contains (tmpl Title_ascii script_page)
      ("value=" +:+ dquote +:+ "&lt;script&gt;&#34; onfocus=alert(1)"
       +:+ dquote) = true
  ∧ Contains (tmpl Title_ascii script_page)
      ("<a href=" +:+ dquote +:+ "#ZgotmplZ" +:+ dquote +:+ ">") = true.
Proof. by vm_compute. Qed.

(** Decoding the sample payloads. *)
Example Unmarshal_inline :
  Unmarshal_AIOverview inline_raw = Some inline_overview.
Proof. reflexivity. Qed.

Example Unmarshal_token :
  Unmarshal_SearchMetadata token_raw
  = Some (SearchMetadata.mk "tok" "https://serpapi.com/search.json")
  ∧ Unmarshal_AIOverview token_raw = Some AIOverview.zero.
Proof. by split. Qed.

(** A key is matched in any letter case; a later [null] resets a slice. *)
Example Unmarshal_folded_keys :
  Unmarshal_AIOverview
    (JObject [("TEXT_BLOCKS", JArray [JObject [("Type", JString "list")]]);
              ("text_blocks", JNull);
              ("Error", JString "none")])
  = Some (AIOverview.mk nil_slice nil_slice "none").
Proof. reflexivity. Qed.

(** A full run through the fallback, and the page it gives. *)
Example handler_fallback_run :
  handler sample_Getenv (scripted [inr token_response; inr inline_response])
    Title_ascii golang_request world0
  = (Done (mkResponse 200
             (tmpl Title_ascii (mkPageData "golang" (Some inline_overview)))),
     mkWorld [primary "secret" "golang"; secondary "secret" "tok"] []).
Proof. by vm_compute. Qed.

(** ** The properties on the sample runs *)

(** C3 on a sample: the overview comes inline, one call is made. *)
Lemma fetch_inline_overview_sample :
  fetchAIOverview sample_Getenv (scripted [inr inline_response])
    "golang" world0
  = (Done (inr inline_overview),
     after_calls world0 [primary "secret" "golang"]).
Proof.
  apply (fetch_inline_overview sample_Getenv
           (scripted [inr inline_response]) "golang" world0
           inline_response inline_raw inline_overview).
  - done.
  - reflexivity.
  - reflexivity.
  - reflexivity.
  - left. unfold len. simpl. lia.
Defined.

(** C5 on a sample: the entry is a string, which is neither an overview nor
    metadata. *)
Lemma fetch_metadata_decode_error_sample :
  fetchAIOverview sample_Getenv
    (scripted [inr {[ "ai_overview" := text_raw ]}; inr inline_response])
    "golang" world0
  = (Done (inl UnmarshalTypeError),
     after_calls world0 [primary "secret" "golang"]).
Proof.
  apply (fetch_metadata_decode_error sample_Getenv
           (scripted [inr {[ "ai_overview" := text_raw ]};
                      inr inline_response])
           "golang" world0 {[ "ai_overview" := text_raw ]} text_raw).
  - reflexivity.
  - reflexivity.
  - left. reflexivity.
  - reflexivity.
Defined.

(** C2 as stated fails.  The entry [{"page_token": 5}] decodes to an empty
    overview, but its page token is a number and it does not decode as
    metadata: [fetchAIOverview] stops with the decode error after the
    primary call, and no second call is made.  And when the entry does hold
    a token but the second call fails, the result is the error of that
    call, not an overview. *)
Lemma fetch_empty_overview_no_second_call :
  "golang" ≠ ""
  ∧ Unmarshal_AIOverview numeric_token_raw
    = Some (AIOverview.mk nil_slice nil_slice "")
  ∧ Unmarshal_SearchMetadata numeric_token_raw = None
  ∧ fetchAIOverview sample_Getenv
      (scripted [inr {[ "ai_overview" := numeric_token_raw ]};
                 inr inline_response])
      "golang" world0
    = (Done (inl UnmarshalTypeError),
       mkWorld [primary "secret" "golang"] [])
  ∧ Unmarshal_AIOverview token_raw
    = Some (AIOverview.mk nil_slice nil_slice "")
  ∧ fetchAIOverview sample_Getenv
      (scripted [inr token_response; inl "timeout"]) "golang" world0
    = (Done (inl (SearchError "timeout")),
       mkWorld [primary "secret" "golang"; secondary "secret" "tok"] []).
Proof. repeat split; [done|by vm_compute..]. Qed.

(** C2, as amended, on a sample: the second response holds an overview with
    nothing in it, and that is the result. *)
Lemma fetch_empty_overview_second_call_sample :
  calls (fetchAIOverview sample_Getenv
           (scripted [inr token_response; inr hollow_response])
           "golang" world0).2
  = [primary "secret" "golang"; secondary "secret" "tok"]
  ∧ (fetchAIOverview sample_Getenv
       (scripted [inr token_response; inr hollow_response])
       "golang" world0).1
    = Done (inr (AIOverview.mk nil_slice nil_slice "")).
Proof.
  destruct (fetch_empty_overview_second_call sample_Getenv
              (scripted [inr token_response; inr hollow_response])
              "golang" world0 token_response token_raw AIOverview.zero
              (SearchMetadata.mk "tok" "https://serpapi.com/search.json"))
    as (_ & _ & Hcalls & Hresult).
  - done.
  - reflexivity.
  - reflexivity.
  - reflexivity.
  - reflexivity.
  - reflexivity.
  - reflexivity.
  - split; [exact Hcalls|].
    apply (Hresult hollow_response); reflexivity.
Defined.

(** C9 on a sample: the second response has no "ai_overview" entry. *)
Lemma fetch_second_response_without_overview_sample :
  fetchAIOverview sample_Getenv
    (scripted [inr token_response; inr bare_response]) "golang" world0
  = (Done (inr (AIOverview.mk nil_slice nil_slice "")),
     after_calls world0 [primary "secret" "golang";
                         secondary "secret" "tok"]).
Proof.
  apply (fetch_second_response_without_overview sample_Getenv
           (scripted [inr token_response; inr bare_response])
           "golang" world0 token_response token_raw
           (SearchMetadata.mk "tok" "https://serpapi.com/search.json")
           bare_response).
  - reflexivity.
  - reflexivity.
  - intros overview [= <-]. reflexivity.
  - reflexivity.
  - reflexivity.
  - reflexivity.
Defined.

(** C10 as stated fails.  The object [{"serpapi_link": 5}] has no
    "page_token" member, but its link is a number and it does not decode as
    metadata: [fetchAIOverview] stops with the decode error after the
    primary call.  The object [{"page_token": 5}] does not decode as
    metadata either. *)
Lemma fetch_metadata_link_not_string :
  key_is "page_token" "serpapi_link" = false
  ∧ Unmarshal_AIOverview numeric_link_raw
    = Some (AIOverview.mk nil_slice nil_slice "")
  ∧ Unmarshal_SearchMetadata numeric_link_raw = None
  ∧ fetchAIOverview sample_Getenv
      (scripted [inr {[ "ai_overview" := numeric_link_raw ]};
                 inr inline_response])
      "golang" world0
    = (Done (inl UnmarshalTypeError),
       mkWorld [primary "secret" "golang"] [])
  ∧ Unmarshal_SearchMetadata numeric_token_raw = None.
Proof. repeat split; by vm_compute. Qed.

(** C10, as amended, on a sample: the empty object decodes as metadata with
    an empty token, and the second call is made with it. *)
Lemma fetch_without_page_token_sample :
  Unmarshal_SearchMetadata (JObject []) = Some (SearchMetadata.mk "" "")
  ∧ fetchAIOverview sample_Getenv
      (scripted [inr hollow_response; inr inline_response]) "golang" world0
    = (Done (inr inline_overview),
       after_calls world0 [primary "secret" "golang"; secondary "secret" ""]).
Proof.
  destruct (fetch_without_page_token sample_Getenv
              (scripted [inr hollow_response; inr inline_response]) [])
    as (meta & Hmeta & Hrun).
  - intros k v Hin. by apply elem_of_nil in Hin.
  - split; [reflexivity|].
    destruct Hrun as (_ & _ & Hfetch).
    + intros k v Hin. by apply elem_of_nil in Hin.
    + apply (Hfetch "golang" world0 hollow_response).
      * reflexivity.
      * reflexivity.
      * intros overview [= <-]. reflexivity.
Defined.

(** C7 on a sample: [GET /], with no "q" at all. *)
Lemma handler_empty_query_sample :
  ∃ page,
    handler sample_Getenv (scripted []) Title_ascii bare_request world0
      = (Done (mkResponse 200 page), world0)
    ∧ Contains page ("<form method=" +:+ dquote +:+ "GET" +:+ dquote +:+ ">")
      = true
    ∧ Contains page ("<input type=" +:+ dquote +:+ "text" +:+ dquote
                     +:+ " name=" +:+ dquote +:+ "q" +:+ dquote) = true
    ∧ Contains page "</form>" = true
    ∧ Contains page "No AI Overview found" = false
    ∧ Contains page "AI Overview Result" = false
    ∧ Contains page "References" = false
    ∧ Contains page "<h2>" = false
    ∧ Contains page "<div" = false.
Proof.
  apply (handler_empty_query sample_Getenv (scripted []) Title_ascii
           bare_request world0).
  reflexivity.
Defined.

(** C6 on a sample: the page whose every text tries to be markup has the
    markup characters of the page with plain words. *)
Lemma tmpl_markup_from_template_sample :
  markup (tmpl Title_ascii script_page) = markup (tmpl Title_ascii plain_page).
Proof.
  apply (tmpl_markup_from_template Title_ascii script_page plain_page).
  reflexivity.
Defined.

(** C1 fails on the code.  [GET /?q=golang] while the service rejects the
    key: the fetch returns the error, the handler logs it and panics on
    [data.AI.Error = err.Error()].  No page is written and no status. *)
Theorem handler_panics_on_api_failure (title : string → string) :
  fetchAIOverview sample_Getenv (scripted [inl "Invalid API key."])
    "golang" world0
  = (Done (inl (SearchError "Invalid API key.")),
     mkWorld [primary "secret" "golang"] [])
  ∧ handler sample_Getenv (scripted [inl "Invalid API key."]) title
      golang_request world0
    = (Panicked,
       mkWorld [primary "secret" "golang"] ["❌ Invalid API key."]).
Proof.
  split; [reflexivity|].
  by rewrite (handler_fetch_error _ _ _ _ _
                (SearchError "Invalid API key.")
                (mkWorld [primary "secret" "golang"] [])).
Qed.

(** C4 fails on the code.  [GET /?q=golang] while the primary response has
    no "ai_overview" entry: the fetch fails with the not-found error, as
    the claim says, but the handler then panics like for any other error
    and the "No AI Overview found for: golang" page is never written. *)
Theorem handler_panics_on_not_found (title : string → string) :
  fetchAIOverview sample_Getenv (scripted [inr bare_response])
    "golang" world0
  = (Done (inl ErrNotFound),
     mkWorld [primary "secret" "golang"]
             ["❌ AI Overview not found for this query"])
  ∧ handler sample_Getenv (scripted [inr bare_response]) title
      golang_request world0
    = (Panicked,
       mkWorld [primary "secret" "golang"]
               ["❌ AI Overview not found for this query";
                "❌ ai overview not found"])
  ∧ Contains
      (tmpl title (mkPageData "golang" None))
      "<p><em>No AI Overview found for: golang</em></p>" = true.
Proof.
  split; [reflexivity|]. split; [|by vm_compute].
  by rewrite (handler_fetch_error _ _ _ _ _ ErrNotFound
                (mkWorld [primary "secret" "golang"]
                         ["❌ AI Overview not found for this query"])).
Qed.

(** ** Further properties of [fetchAIOverview] *)

Section FetchErrors.

Variable Getenv : string → string.
Variable serpapi : list Search → Search → string + SearchResult.

Local Abbreviation fetch := (fetchAIOverview Getenv serpapi).
Local Abbreviation apiKey := (Getenv "api_key").

Ltac run_fetch :=
  unfold fetchAIOverview, fetch_fallback, GetJSON, bind, ret, log_Print,
    after_calls, primary, secondary; simpl.

(** Whatever the payload, the second half of the function logs nothing,
    never fails with the not-found error, and makes one call when the
    payload decodes as metadata and none otherwise. *)
Lemma fetch_fallback_shape raw w :
  logged (fetch_fallback serpapi apiKey raw w).2 = logged w
  ∧ (∃ r, (fetch_fallback serpapi apiKey raw w).1 = Done r
          ∧ r ≠ inl ErrNotFound)
  ∧ ((fetch_fallback serpapi apiKey raw w).1 = Done (inl UnmarshalTypeError)
      ∧ calls (fetch_fallback serpapi apiKey raw w).2 = calls w
     ∨ ∃ meta, Unmarshal_SearchMetadata raw = Some meta
        ∧ calls (fetch_fallback serpapi apiKey raw w).2
          = calls w ++ [secondary apiKey (SearchMetadata.PageToken meta)]).
Proof.
  destruct (Unmarshal_SearchMetadata raw) as [meta|] eqn:Hmeta.
  - rewrite (fetch_fallback_run _ _ _ _ _ Hmeta). simpl.
    split; [done|]. split; [|right; by exists meta].
    eexists; split; [done|].
    destruct (serpapi _ _) as [msg|results]; [done|].
    by destruct (Unmarshal_AIOverview _).
  - unfold fetch_fallback. rewrite Hmeta. simpl.
    split; [done|]. split; [by eexists|by left].
Qed.

(** The function, with its second half kept folded. *)
Lemma fetch_unfold query w :
  fetch query w =
    match serpapi (calls w) (primary apiKey query) with
    | inl msg =>
        (Done (inl (SearchError msg)), after_calls w [primary apiKey query])
    | inr results =>
        match results !! "ai_overview" with
        | None =>
            (Done (inl ErrNotFound),
             mkWorld (calls w ++ [primary apiKey query])
                     (logged w ++ ["❌ AI Overview not found for this query"]))
        | Some raw =>
            match Unmarshal_AIOverview raw with
            | Some overview =>
                if AIOverview.IsEmpty overview
                then fetch_fallback serpapi apiKey raw
                       (after_calls w [primary apiKey query])
                else (Done (inr overview),
                      after_calls w [primary apiKey query])
            | None =>
                fetch_fallback serpapi apiKey raw
                  (after_calls w [primary apiKey query])
            end
        end
    end.
Proof.
  unfold fetchAIOverview, GetJSON, bind, ret, log_Print, after_calls, primary.
  simpl. destruct (serpapi _ _) as [msg|results]; [done|].
  destruct (results !! "ai_overview") as [raw|]; [|done].
  destruct (Unmarshal_AIOverview raw) as [overview|]; [|done].
  by destruct (AIOverview.IsEmpty overview).
Qed.

(** X1. When the primary call fails, [fetchAIOverview] returns the error
    of that call; it has made that one call and logged nothing. *)
Theorem fetch_primary_call_fails query w msg :
  serpapi (calls w) (primary apiKey query) = inl msg →
  fetch query w =
    (Done (inl (SearchError msg)), after_calls w [primary apiKey query]).
Proof.
  intros Hcall. run_fetch. unfold primary in Hcall. by rewrite Hcall.
Qed.

(** X2. When the first check fails, the payload decodes as metadata and
    the second call fails, [fetchAIOverview] returns the error of the
    second call; it has made exactly the two calls and logged nothing. *)
Theorem fetch_secondary_call_fails query w results raw meta msg :
  serpapi (calls w) (primary apiKey query) = inr results →
  results !! "ai_overview" = Some raw →
  (∀ overview, Unmarshal_AIOverview raw = Some overview →
               AIOverview.IsEmpty overview = true) →
  Unmarshal_SearchMetadata raw = Some meta →
  serpapi (calls w ++ [primary apiKey query])
          (secondary apiKey (SearchMetadata.PageToken meta)) = inl msg →
  fetch query w =
    (Done (inl (SearchError msg)),
     after_calls w [primary apiKey query;
                    secondary apiKey (SearchMetadata.PageToken meta)]).
Proof.
  intros Hcall Hraw Hfirst Hmeta Hcall2.
  rewrite (fetch_falls_back _ _ _ _ _ _ Hcall Hraw Hfirst),
    (fetch_fallback_run _ _ _ _ _ Hmeta), after_calls_app; simpl.
  by rewrite Hcall2.
Qed.

(** X3. When the second call succeeds but the "ai_overview" entry of its
    response does not decode as an overview, [fetchAIOverview] fails with
    the decode error after the two calls. *)
Theorem fetch_secondary_decode_error query w results raw meta results2 raw2 :
  serpapi (calls w) (primary apiKey query) = inr results →
  results !! "ai_overview" = Some raw →
  (∀ overview, Unmarshal_AIOverview raw = Some overview →
               AIOverview.IsEmpty overview = true) →
  Unmarshal_SearchMetadata raw = Some meta →
  serpapi (calls w ++ [primary apiKey query])
          (secondary apiKey (SearchMetadata.PageToken meta)) = inr results2 →
  results2 !! "ai_overview" = Some raw2 →
  Unmarshal_AIOverview raw2 = None →
  fetch query w =
    (Done (inl UnmarshalTypeError),
     after_calls w [primary apiKey query;
                    secondary apiKey (SearchMetadata.PageToken meta)]).
Proof.
  intros Hcall Hraw Hfirst Hmeta Hcall2 Hraw2 Hdec2.
  rewrite (fetch_falls_back _ _ _ _ _ _ Hcall Hraw Hfirst),
    (fetch_fallback_run _ _ _ _ _ Hmeta), after_calls_app; simpl.
  by rewrite Hcall2, Hraw2; simpl; rewrite Hdec2.
Qed.

(** X4. [fetchAIOverview] fails with the not-found error exactly when the
    primary call succeeds and its response has no "ai_overview" entry, and
    that is the only case in which it writes to the log (one line). *)
Theorem fetch_not_found_iff query w :
  ((fetch query w).1 = Done (inl ErrNotFound)
   ↔ ∃ results, serpapi (calls w) (primary apiKey query) = inr results
                ∧ results !! "ai_overview" = None)
  ∧ logged (fetch query w).2 =
      logged w ++
      match (fetch query w).1 with
      | Done (inl ErrNotFound) => ["❌ AI Overview not found for this query"]
      | _ => []
      end.
Proof.
  destruct (serpapi (calls w) (primary apiKey query))
    as [msg|results] eqn:Hcall.
  { rewrite (fetch_primary_error _ _ _ _ _ Hcall). simpl.
    split; [|by rewrite app_nil_r].
    split; [done|]. by intros (? & ? & ?). }
  destruct (results !! "ai_overview") as [raw|] eqn:Hraw.
  2: { rewrite (fetch_not_found _ _ _ _ _ Hcall Hraw). simpl.
       split; [|done]. split; [|done]. intros _. by exists results. }
  assert (∀ (r : error + AIOverview.t) (w' : World),
            r ≠ inl ErrNotFound → logged w' = logged w →
            ((Done r = Done (inl ErrNotFound)
              ↔ ∃ results0, (inr results : string + SearchResult) = inr results0
                            ∧ results0 !! "ai_overview" = None)
             ∧ logged w' = logged w ++
                 match r with
                 | inl ErrNotFound =>
                     ["❌ AI Overview not found for this query"]
                 | _ => []
                 end)) as Hother.
  { intros r w' Hr Hlog. split.
    - split; [by intros [= ->]|]. intros (results0 & [= <-] & Hnone).
      congruence.
    - rewrite Hlog. destruct r as [[]|]; by rewrite ?app_nil_r. }
  pose proof (fetch_fallback_shape raw (after_calls w [primary apiKey query]))
    as (Hlog & (r & Hr & Hne) & _).
  rewrite fetch_unfold, Hcall, Hraw.
  destruct (Unmarshal_AIOverview raw) as [overview|];
    [destruct (AIOverview.IsEmpty overview)|].
  - destruct (fetch_fallback _ _ _ _) as [res w'] eqn:Heq. simpl in *.
    subst res. by apply (Hother r w').
  - by apply (Hother (inr overview) _).
  - destruct (fetch_fallback _ _ _ _) as [res w'] eqn:Heq. simpl in *.
    subst res. by apply (Hother r w').
Qed.

(** X5. A successful fetch is of one of two kinds: the overview came with
    the primary response, it is not empty and one call was made; or a
    second call was made.  An empty overview is never returned after a
    single call. *)
Theorem fetch_success_cases query w overview w' :
  fetch query w = (Done (inr overview), w') →
  (AIOverview.IsEmpty overview = false
   ∧ calls w' = calls w ++ [primary apiKey query])
  ∨ ∃ page_token,
      calls w' = calls w ++ [primary apiKey query;
                             secondary apiKey page_token].
Proof.
  rewrite fetch_unfold.
  destruct (serpapi (calls w) (primary apiKey query))
    as [msg|results]; [done|].
  destruct (results !! "ai_overview") as [raw|]; [|done].
  pose proof (fetch_fallback_shape raw (after_calls w [primary apiKey query]))
    as (_ & _ & Hcalls).
  assert (∀ r, fetch_fallback serpapi apiKey raw
                 (after_calls w [primary apiKey query]) = (Done (inr r), w') →
               ∃ page_token, calls w' = calls w ++ [primary apiKey query;
                                          secondary apiKey page_token])
    as Hfallback.
  { intros r Heq. rewrite Heq in Hcalls. simpl in Hcalls.
    destruct Hcalls as [[Herr _]|(meta & Hmeta & Hcalls)]; [done|].
    exists (SearchMetadata.PageToken meta).
    by rewrite Hcalls, <- (assoc_L (++)). }
  destruct (Unmarshal_AIOverview raw) as [o|];
    [destruct (AIOverview.IsEmpty o) eqn:Hempty|].
  - intros Heq. right. by apply (Hfallback overview).
  - intros [= <- <-]. by left.
  - intros Heq. right. by apply (Hfallback overview).
Qed.

End FetchErrors.

(** ** Payloads and what they decode to *)

Lemma decode_items_length {T : Type} (zero : T) dec backing items xs :
  decode_items zero dec backing items = Some xs →
  length xs = length items.
Proof.
  revert backing xs. induction items as [|j items IH]; intros backing xs.
  { by intros [= <-]. }
  simpl. destruct (dec _ j) as [x|]; [|done]. simpl.
  destruct (decode_items zero dec (tl backing) items) as [xs'|] eqn:Hrest;
    [|done].
  intros [= <-]. simpl. f_equal. by apply (IH (tl backing)).
Qed.

(** A slice decoded from a JSON value has the length of the array, and
    length zero for [null]. *)
Lemma decode_slice_len {T : Type} (zero : T) dec old v new :
  decode_slice zero dec old v = Some new →
  len new = match v with JArray items => length items | _ => 0%nat end.
Proof.
  destruct v as [| | | |items|]; try done.
  - by intros [= <-].
  - destruct items as [|j items]; [by intros [= <-]|].
    unfold decode_slice.
    destruct (decode_items _ _ _ _) as [xs|] eqn:Hitems; [|done].
    intros [= <-]. unfold len. simpl.
    by apply decode_items_length in Hitems.
Qed.

(** One member of an overview object: the lengths after it. *)
Lemma AIOverview_field_len k v acc o :
  AIOverview_field k v acc = Some o →
  len (AIOverview.TextBlocks o) =
    (if key_is "text_blocks" k
     then match v with JArray items => length items | _ => 0%nat end
     else len (AIOverview.TextBlocks acc))
  ∧ len (AIOverview.References o) =
    (if key_is "references" k
     then match v with JArray items => length items | _ => 0%nat end
     else len (AIOverview.References acc)).
Proof.
  destruct acc as [blocks refs err]. unfold AIOverview_field.
  assert (key_is "text_blocks" k = true → key_is "references" k = false)
    as Hexcl.
  { unfold key_is, EqualFold. intros Hb%bool_decide_eq_true.
    apply bool_decide_eq_false. intros Hr. by rewrite <- Hb in Hr. }
  destruct (key_is "text_blocks" k) eqn:Hblocks.
  - rewrite (Hexcl eq_refl).
    destruct (decode_slice _ _ blocks v) as [l|] eqn:Hl; [|done].
    intros [= <-]. simpl. split; [|done]. by apply decode_slice_len in Hl.
  - destruct (key_is "references" k) eqn:Hrefs.
    + destruct (decode_slice _ _ refs v) as [l|] eqn:Hl; [|done].
      intros [= <-]. simpl. split; [done|]. by apply decode_slice_len in Hl.
    + destruct (key_is "error" k).
      * destruct (decode_string err v); [|done]. by intros [= <-].
      * by intros [= <-].
Qed.

Lemma decode_AIOverview_members_len members acc o :
  foldl (λ acc kv, x ← acc; AIOverview_field kv.1 kv.2 x) (Some acc) members
    = Some o →
  len (AIOverview.TextBlocks o) =
    foldl (λ n kv,
             if key_is "text_blocks" kv.1 then
               match kv.2 with JArray items => length items | _ => 0%nat end
             else n)
          (len (AIOverview.TextBlocks acc)) members
  ∧ len (AIOverview.References o) =
    foldl (λ n kv,
             if key_is "references" kv.1 then
               match kv.2 with JArray items => length items | _ => 0%nat end
             else n)
          (len (AIOverview.References acc)) members.
Proof.
  revert acc. induction members as [|[k v] members IH]; intros acc.
  { by intros [= <-]. }
  simpl. destruct (AIOverview_field k v acc) as [acc'|] eqn:Hstep.
  - intros Hfold. destruct (AIOverview_field_len _ _ _ _ Hstep) as [Hb Hr].
    destruct (IH acc' Hfold) as [-> ->]. by rewrite Hb, Hr.
  - intros Hfold. exfalso. clear -Hfold.
    induction members as [|kv members IH]; [done|]. by apply IH.
Qed.

(** X6. The size of a decoded overview is read off the object: it has as
    many text blocks as the last "text_blocks" member has items, and as
    many references as the last "references" member has items (none when
    the member is [null] or missing).  Earlier members of the same name and
    members of other names do not count. *)
Theorem Unmarshal_AIOverview_lengths members overview :
  Unmarshal_AIOverview (JObject members) = Some overview →
  len (AIOverview.TextBlocks overview) = final_length "text_blocks" members
  ∧ len (AIOverview.References overview) = final_length "references" members.
Proof.
  intros Hdec. by apply (decode_AIOverview_members_len members AIOverview.zero).
Qed.

Section FetchPayloads.

Variable Getenv : string → string.
Variable serpapi : list Search → Search → string + SearchResult.

Local Abbreviation fetch := (fetchAIOverview Getenv serpapi).
Local Abbreviation apiKey := (Getenv "api_key").

Lemma final_length_none name members :
  (∀ k v, (k, v) ∈ members → key_is name k = false) →
  final_length name members = 0%nat.
Proof.
  unfold final_length. generalize 0%nat.
  induction members as [|[k v] members IH]; intros n Hno; [done|].
  simpl. rewrite (Hno k v) by by left.
  apply IH. intros k' v' Hin. apply (Hno k' v'). by right.
Qed.

(** An object with neither list never passes the first check. *)
Lemma no_overview_members_empty members overview :
  no_overview_members members →
  Unmarshal_AIOverview (JObject members) = Some overview →
  AIOverview.IsEmpty overview = true.
Proof.
  intros Hno Hdec.
  destruct (decode_AIOverview_members_len members AIOverview.zero overview
              Hdec) as [Hb Hr].
  change (len (AIOverview.TextBlocks overview)
          = final_length "text_blocks" members) in Hb.
  change (len (AIOverview.References overview)
          = final_length "references" members) in Hr.
  rewrite !final_length_none in *.
  - by apply IsEmpty_true.
  - intros k v Hin. by apply (Hno k v).
  - intros k v Hin. by apply (Hno k v).
Qed.

(** X7. The token the service puts in the payload is the token of the
    second call.  When the "ai_overview" object has neither list, its
    metadata members hold strings and the last "page_token" member is the
    string [token], [fetchAIOverview] makes the second call with
    "page_token" set to [token] and returns what that call gives. *)
Theorem fetch_sends_page_token query w results before k token after :
  serpapi (calls w) (primary apiKey query) = inr results →
  results !! "ai_overview"
    = Some (JObject (before ++ (k, JString token) :: after)) →
  key_is "page_token" k = true →
  no_page_token after →
  metadata_typed (before ++ (k, JString token) :: after) →
  no_overview_members (before ++ (k, JString token) :: after) →
  Parameter_ (secondary apiKey token) !! "page_token" = Some token
  ∧ fetch query w =
      (Done match serpapi (calls w ++ [primary apiKey query])
                    (secondary apiKey token) with
            | inl msg => inl (SearchError msg)
            | inr results2 =>
                match Unmarshal_AIOverview
                        (default JNull (results2 !! "ai_overview")) with
                | Some result => inr result
                | None => inl UnmarshalTypeError
                end
            end,
       after_calls w [primary apiKey query; secondary apiKey token]).
Proof.
  intros Hcall Hraw Hk Hafter Htyped Hno.
  split; [apply secondary_param_lookup|].
  assert (∃ meta,
    Unmarshal_SearchMetadata (JObject (before ++ (k, JString token) :: after))
      = Some meta
    ∧ SearchMetadata.PageToken meta = token) as (meta & Hmeta & Htoken).
  { unfold Unmarshal_SearchMetadata, decode_SearchMetadata, decode_struct.
    rewrite foldl_app.
    destruct (decode_SearchMetadata_members before SearchMetadata.zero)
      as (acc & -> & _).
    { intros k' v' Hin. apply (Htyped k' v'), elem_of_app. by left. }
    simpl. destruct acc as [token0 link0]. unfold SearchMetadata_field at 2.
    rewrite Hk. simpl.
    destruct (decode_SearchMetadata_members after
                (SearchMetadata.mk token link0))
      as (meta & -> & Hkeep).
    { intros k' v' Hin. apply (Htyped k' v'), elem_of_app. right. by right. }
    exists meta. split; [done|]. by apply Hkeep. }
  rewrite (fetch_falls_back _ _ _ _ _ _ Hcall Hraw),
    (fetch_fallback_run _ _ _ _ _ Hmeta), after_calls_app, Htoken; [done|].
  intros overview. by apply no_overview_members_empty.
Qed.

End FetchPayloads.

(** ** Further properties of the handler *)

Section HandlerOutcomes.

Variable Getenv : string → string.
Variable serpapi : list Search → Search → string + SearchResult.
Variable title : string → string.

Local Abbreviation fetch := (fetchAIOverview Getenv serpapi).
Local Abbreviation handle := (handler Getenv serpapi title).
Local Abbreviation apiKey := (Getenv "api_key").

(** [fetchAIOverview] itself never panics. *)
Lemma fetch_completes query w : ∃ r, (fetch query w).1 = Done r.
Proof.
  rewrite fetch_unfold.
  pose proof (fetch_fallback_shape Getenv serpapi)
    as Hshape.
  destruct (serpapi _ _) as [msg|results]; [by eexists|].
  destruct (results !! "ai_overview") as [raw|]; [|by eexists].
  destruct (Hshape raw (after_calls w [primary apiKey query]))
    as (_ & (r & Hr & _) & _).
  destruct (Unmarshal_AIOverview raw) as [overview|];
    [destruct (AIOverview.IsEmpty overview)|]; by eexists.
Qed.

(** X8. Every response the handler writes has status 200 and is one of two
    pages: the bare form, for an empty query, with nothing called or
    logged; or the page of the overview a successful fetch returned.  The
    page data never holds a query without an overview, so the branch of the
    template with the "No AI Overview found" message is never executed. *)
Theorem handler_responses URL_Query w response w' :
  handle URL_Query w = (Done response, w') →
  StatusCode response = 200%nat
  ∧ ((Get URL_Query "q" = "" ∧ w' = w
      ∧ Body response = tmpl title (mkPageData "" None))
     ∨ (Get URL_Query "q" ≠ ""
        ∧ ∃ ai, fetch (Get URL_Query "q") w = (Done (inr ai), w')
                ∧ Body response
                  = tmpl title (mkPageData (Get URL_Query "q") (Some ai)))).
Proof.
  unfold handler, bind, ret, Execute.
  destruct (decide (Get URL_Query "q" = "")) as [Hq|Hq].
  - rewrite Hq. simpl. intros [= <- <-]. split; [done|]. by left.
  - rewrite bool_decide_eq_true_2 by done.
    destruct (fetch _ w) as [[[err|ai]|] w1] eqn:Hfetch; simpl; [done| |done].
    intros [= <- <-]. split; [done|]. right. split; [done|]. by exists ai.
Qed.

(** X9. The handler panics exactly when the query is not empty and the
    fetch fails, whatever the error: the primary call failing, no
    "ai_overview" entry, a payload that does not decode, or the second
    call failing. *)
Theorem handler_panics_iff URL_Query w :
  (handle URL_Query w).1 = Panicked
  ↔ Get URL_Query "q" ≠ ""
    ∧ ∃ err, (fetch (Get URL_Query "q") w).1 = Done (inl err).
Proof.
  unfold handler, bind, ret, Execute.
  destruct (decide (Get URL_Query "q" = "")) as [Hq|Hq].
  - rewrite Hq. simpl. split; [done|]. by intros [? _].
  - rewrite bool_decide_eq_true_2 by done.
    destruct (fetch_completes (Get URL_Query "q") w) as [r Hr].
    destruct (fetch _ w) as [res w1] eqn:Hfetch. simpl in Hr. subst res.
    destruct r as [err|ai]; simpl.
    + split; [|done]. intros _. split; [done|]. by exists err.
    + split; [done|]. by intros [_ [err [=]]].
Qed.

(** X10. From the answer of the service to the page: when the query is not
    empty and the "ai_overview" entry of the primary response decodes to an
    overview that is not empty, the handler answers 200 with the page of
    that overview, after one call and with nothing logged. *)
Theorem handler_renders_inline_overview
    URL_Query w results raw overview :
  Get URL_Query "q" ≠ "" →
  serpapi (calls w) (primary apiKey (Get URL_Query "q")) = inr results →
  results !! "ai_overview" = Some raw →
  Unmarshal_AIOverview raw = Some overview →
  AIOverview.IsEmpty overview = false →
  handle URL_Query w =
    (Done (mkResponse 200
             (tmpl title (mkPageData (Get URL_Query "q") (Some overview)))),
     after_calls w [primary apiKey (Get URL_Query "q")]).
Proof.
  intros Hq Hcall Hraw Hdec Hfull.
  apply handler_fetch_ok; [done|].
  by rewrite fetch_unfold, Hcall, Hraw, Hdec, Hfull.
Qed.

End HandlerOutcomes.

(** ** Counting the tags of the page *)

Lemma HasPrefix_app_settled (pat t b : string) :
  t ≠ "" → cut_short t pat = false →
  HasPrefix (t +:+ b) pat = HasPrefix t pat.
Proof.
  revert t. induction pat as [|a p IH]; intros t Ht Hcut; [done|].
  destruct t as [|c r]; [done|]. simpl.
  destruct (Ascii.eqb a c) eqn:Hac; [|done]. simpl.
  apply Ascii.eqb_eq in Hac as ->.
  revert Hcut. unfold cut_short. simpl. rewrite Ascii.eqb_refl. simpl.
  destruct r as [|c' r'].
  - destruct p; [done|]. by simpl.
  - intros Hcut. by apply IH.
Qed.

Lemma cut_short_app (pat t b : string) :
  t ≠ "" → cut_short t pat = false → cut_short (t +:+ b) pat = false.
Proof.
  revert t. induction pat as [|a p IH]; intros t Ht Hcut.
  { destruct t; [done|]. done. }
  destruct t as [|c r]; [done|]. revert Hcut. unfold cut_short. simpl.
  destruct (Ascii.eqb c a); [|done]. simpl.
  destruct r as [|c' r']; simpl.
  - destruct p; [|done]. intros _. by rewrite andb_false_r.
  - intros Hcut. by apply (IH (String c' r')).
Qed.

Lemma occurrences_nil (pat : string) : pat ≠ "" → occurrences pat "" = 0%nat.
Proof. by destruct pat. Qed.

Lemma occurrences_app (pat a b : string) :
  pat ≠ "" → settled pat a = true →
  occurrences pat (a +:+ b) = (occurrences pat a + occurrences pat b)%nat.
Proof.
  intros Hpat. induction a as [|c r IH]; intros Hsettled.
  { by rewrite occurrences_nil. }
  simpl in Hsettled. apply andb_prop in Hsettled as [Hcut Hr].
  apply negb_true_iff in Hcut.
  change (occurrences pat (String c r +:+ b))
    with ((if HasPrefix (String c r +:+ b) pat then 1 else 0)
          + occurrences pat (r +:+ b))%nat.
  rewrite (HasPrefix_app_settled pat (String c r) b) by done.
  rewrite (IH Hr). simpl. lia.
Qed.

Lemma settled_app (pat a b : string) :
  settled pat a = true → settled pat b = true →
  settled pat (a +:+ b) = true.
Proof.
  intros Ha Hb. induction a as [|c r IH]; [done|].
  simpl in Ha. apply andb_prop in Ha as [Hcut Hr].
  apply negb_true_iff in Hcut.
  change (settled pat (String c r +:+ b))
    with (negb (cut_short (String c r +:+ b) pat) && settled pat (r +:+ b)).
  rewrite (cut_short_app pat (String c r) b) by done. simpl. by apply IH.
Qed.

Lemma settled_range {A : Type} (pat : string) (f : A → string) (l : list A) :
  (∀ x, settled pat (f x) = true) →
  settled pat (concat_strings (f <$> l)) = true.
Proof.
  intros Hf. induction l as [|x l IH]; [done|].
  rewrite fmap_cons.
  change (settled pat (f x +:+ concat_strings (f <$> l)) = true).
  by apply settled_app.
Qed.

Lemma occurrences_range {A : Type} (pat : string) (f : A → string)
    (l : list A) :
  pat ≠ "" → (∀ x, settled pat (f x) = true) →
  occurrences pat (concat_strings (f <$> l))
  = sum_list_with (λ x, occurrences pat (f x)) l.
Proof.
  intros Hpat Hf. induction l as [|x l IH].
  { by apply occurrences_nil. }
  rewrite fmap_cons.
  change (occurrences pat (f x +:+ concat_strings (f <$> l))
          = (occurrences pat (f x)
             + sum_list_with (λ x, occurrences pat (f x)) l)%nat).
  by rewrite occurrences_app, IH.
Qed.

(** Text with no markup character starts no tag. *)
Lemma markup_free_settled (pat s : string) :
  HasPrefix pat "<" = true → markup s = [] →
  settled pat s = true ∧ occurrences pat s = 0%nat.
Proof.
  intros Hlt. destruct pat as [|a p]; [done|].
  cbn [HasPrefix] in Hlt. rewrite andb_true_r in Hlt.
  apply Ascii.eqb_eq in Hlt as <-.
  induction s as [|c r IH]; [done|].
  cbn [markup]. destruct (is_markup c) eqn:Hc; [done|]. intros Hr.
  destruct (IH Hr) as [Hs Ho].
  assert (Ascii.eqb "<" c = false) as Hne.
  { apply Ascii.eqb_neq. by intros <-. }
  cbn [settled occurrences]. rewrite Hs, Ho. unfold cut_short.
  cbn [HasPrefix]. by rewrite (Ascii.eqb_sym c "<"), Hne.
Qed.

Lemma settled_htmlReplacer (pat s : string) :
  HasPrefix pat "<" = true → settled pat (htmlReplacer s) = true.
Proof. intros Hlt. by apply markup_free_settled, htmlReplacer_markup. Qed.

Lemma occurrences_htmlReplacer (pat s : string) :
  HasPrefix pat "<" = true → occurrences pat (htmlReplacer s) = 0%nat.
Proof. intros Hlt. by apply markup_free_settled, htmlReplacer_markup. Qed.

Lemma tag_nonempty (pat : string) : HasPrefix pat "<" = true → pat ≠ "".
Proof. by destruct pat. Qed.

Lemma sum_list_with_const {A : Type} (k : nat) (l : list A) :
  sum_list_with (λ _, k) l = (k * length l)%nat.
Proof. induction l as [|x l IH]; simpl; lia. Qed.

Lemma sum_list_with_ext {A : Type} (f g : A → nat) (l : list A) :
  (∀ x, f x = g x) → sum_list_with f l = sum_list_with g l.
Proof. intros Hfg. induction l as [|x l IH]; simpl; [done|]. by rewrite Hfg, IH. Qed.

(** A text of the template, with no data in it. *)
Ltac closed_string t :=
  lazymatch t with
  | context [htmlReplacer] => fail
  | context [htmlEscaper] => fail
  | context [attrEscaper] => fail
  | context [concat_strings] => fail
  | context [tmpl_ListItem] => fail
  | context [tmpl_List] => fail
  | context [tmpl_TextBlock] => fail
  | context [tmpl_Reference] => fail
  | context [tmpl_result] => fail
  | _ => idtac
  end.

(** [settled pat s = true] for a part [s] of the page. *)
Ltac settle :=
  lazymatch goal with
  | |- settled _ (htmlReplacer _) = true =>
      apply settled_htmlReplacer; reflexivity
  | |- settled _ (htmlEscaper _) = true =>
      apply settled_htmlReplacer; reflexivity
  | |- settled _ (attrEscaper _) = true =>
      apply settled_htmlReplacer; reflexivity
  | |- settled _ (concat_strings (_ <$> _)) = true =>
      apply settled_range; intro; settle
  | |- settled _ (tmpl_ListItem _) = true => unfold tmpl_ListItem; settle
  | |- settled _ (tmpl_List ?l) = true =>
      unfold tmpl_List; destruct (0 <? len l)%nat; settle
  | |- settled _ (tmpl_TextBlock _ _) = true => unfold tmpl_TextBlock; settle
  | |- settled _ (tmpl_Reference _) = true => unfold tmpl_Reference; settle
  | |- settled _ ?s = true =>
      tryif closed_string s then vm_compute; reflexivity
      else (apply settled_app; settle)
  end.

(** Split the count over the parts of the page, and count the texts of the
    template. *)
Ltac count_split :=
  repeat match goal with
         | |- context [occurrences ?P (?a +:+ ?b)] =>
             tryif closed_string (a +:+ b) then fail else
               rewrite (occurrences_app P a b)
                 by (first [apply tag_nonempty; reflexivity | settle])
         end;
  repeat match goal with
         | |- context [occurrences ?P (concat_strings (?f <$> ?l))] =>
             rewrite (occurrences_range P f l)
               by (first [apply tag_nonempty; reflexivity | intro; settle])
         end;
  unfold htmlEscaper, attrEscaper;
  rewrite ?occurrences_htmlReplacer by reflexivity;
  repeat match goal with
         | |- context [occurrences ?P ?s] =>
             closed_string s;
             let n := eval vm_compute in (occurrences P s) in
             change (occurrences P s) with n
         end.


(** The parts of the page that hold no occurrence of a tag. *)
Ltac count_none :=
  intros;
  unfold tmpl_List, tmpl_TextBlock, tmpl_Reference, tmpl_ListItem;
  try match goal with
      | |- context [if (0 <? len ?l)%nat then _ else _] =>
          destruct (0 <? len l)%nat; [|reflexivity]
      end;
  count_split;
  rewrite ?(sum_list_with_ext _ (λ _, 0%nat)), ?sum_list_with_const
    by (intros; unfold tmpl_ListItem; count_split; reflexivity);
  lia.

Section TagCounts.

Variable title : string → string.

Lemma tmpl_TextBlock_div b :
  occurrences tag_div (tmpl_TextBlock title b) = 1%nat.
Proof.
  assert (∀ l, occurrences tag_div (tmpl_List l) = 0%nat) as Hlist
    by count_none.
  unfold tmpl_TextBlock. count_split. rewrite Hlist. lia.
Qed.

Lemma tmpl_Reference_div r : occurrences tag_div (tmpl_Reference r) = 1%nat.
Proof. unfold tmpl_Reference. count_split. lia. Qed.

Lemma tmpl_TextBlock_a b : occurrences tag_a (tmpl_TextBlock title b) = 0%nat.
Proof.
  assert (∀ l, occurrences tag_a (tmpl_List l) = 0%nat) as Hlist
    by count_none.
  unfold tmpl_TextBlock. count_split. rewrite Hlist. lia.
Qed.

Lemma tmpl_Reference_a r : occurrences tag_a (tmpl_Reference r) = 1%nat.
Proof. unfold tmpl_Reference. count_split. lia. Qed.

Ltac count_page Hblock Href :=
  unfold tmpl, tmpl_result;
  lazymatch goal with
  | |- context [AI ?data] =>
      destruct data as [q [ai|]]; cbn [Query AI];
      [|destruct (bool_decide (q ≠ ""))]
  end;
  count_split;
  rewrite ?(sum_list_with_ext _ _ _ Hblock), ?(sum_list_with_ext _ _ _ Href),
    ?sum_list_with_const;
  unfold len; try lia.

(** X11. The page has one [<div class="text-block">] for each text block
    and each reference of the overview, and one link for each reference,
    whatever their texts; it has none when there is no overview. *)
Theorem tmpl_text_block_count data :
  occurrences tag_div (tmpl title data) =
    match AI data with
    | Some ai =>
        (len (AIOverview.TextBlocks ai) + len (AIOverview.References ai))%nat
    | None => 0%nat
    end
  ∧ occurrences tag_a (tmpl title data) =
    match AI data with
    | Some ai => len (AIOverview.References ai)
    | None => 0%nat
    end.
Proof.
  split.
  - count_page tmpl_TextBlock_div tmpl_Reference_div.
  - count_page tmpl_TextBlock_a tmpl_Reference_a.
Qed.

Lemma tmpl_List_li l : occurrences "<li>" (tmpl_List l) = len l.
Proof.
  unfold tmpl_List. destruct (0 <? len l)%nat eqn:Hlen.
  - count_split.
    rewrite (sum_list_with_ext _ (λ _, 1%nat)), sum_list_with_const.
    + unfold len. lia.
    + intros it. unfold tmpl_ListItem. count_split. lia.
  - apply Nat.ltb_ge in Hlen. cbn. lia.
Qed.

Lemma tmpl_TextBlock_li b :
  occurrences "<li>" (tmpl_TextBlock title b) = len (TextBlock.List b).
Proof. unfold tmpl_TextBlock. count_split. rewrite tmpl_List_li. lia. Qed.

Lemma tmpl_Reference_li r : occurrences "<li>" (tmpl_Reference r) = 0%nat.
Proof. count_none. Qed.

(** X12. The page has one [<li>] for each list item of each text block of
    the overview, and none when there is no overview. *)
Theorem tmpl_list_item_count data :
  occurrences "<li>" (tmpl title data) =
    match AI data with
    | Some ai =>
        sum_list_with (λ b, len (TextBlock.List b))
                      (elems (AIOverview.TextBlocks ai))
    | None => 0%nat
    end.
Proof. count_page tmpl_TextBlock_li tmpl_Reference_li. Qed.

Lemma tmpl_TextBlock_none b :
  occurrences "<form" (tmpl_TextBlock title b) = 0%nat
  ∧ occurrences "<h2>" (tmpl_TextBlock title b) = 0%nat
  ∧ occurrences "<em>" (tmpl_TextBlock title b) = 0%nat.
Proof.
  assert (∀ l, occurrences "<form" (tmpl_List l) = 0%nat) as Hform
    by count_none.
  assert (∀ l, occurrences "<h2>" (tmpl_List l) = 0%nat) as Hh2
    by count_none.
  assert (∀ l, occurrences "<em>" (tmpl_List l) = 0%nat) as Hem
    by count_none.
  unfold tmpl_TextBlock. repeat split; count_split;
    rewrite ?Hform, ?Hh2, ?Hem; lia.
Qed.

Lemma tmpl_Reference_none r :
  occurrences "<form" (tmpl_Reference r) = 0%nat
  ∧ occurrences "<h2>" (tmpl_Reference r) = 0%nat
  ∧ occurrences "<em>" (tmpl_Reference r) = 0%nat.
Proof. repeat split; count_none. Qed.

(** X13. Every page has the form exactly once.  It has the two headings
    exactly when there is an overview, even an empty one, and the emphasised
    "No AI Overview found" line exactly when there is a query and no
    overview. *)
Theorem tmpl_skeleton data :
  occurrences "<form" (tmpl title data) = 1%nat
  ∧ occurrences "<h2>" (tmpl title data)
    = match AI data with Some _ => 2%nat | None => 0%nat end
  ∧ occurrences "<em>" (tmpl title data)
    = match AI data with
      | Some _ => 0%nat
      | None => if bool_decide (Query data ≠ "") then 1%nat else 0%nat
      end.
Proof.
  repeat split.
  - count_page (λ b, proj1 (tmpl_TextBlock_none b))
               (λ r, proj1 (tmpl_Reference_none r)).
  - count_page (λ b, proj1 (proj2 (tmpl_TextBlock_none b)))
               (λ r, proj1 (proj2 (tmpl_Reference_none r))).
  - count_page (λ b, proj2 (proj2 (tmpl_TextBlock_none b)))
               (λ r, proj2 (proj2 (tmpl_Reference_none r))).
Qed.

End TagCounts.

(** ** The further properties on the sample runs *)

(** Membership in a list of members written out. *)
Ltac members_cases H :=
  repeat (apply elem_of_cons in H as [[= -> ->]|H]);
  try (by apply elem_of_nil in H).

Lemma fetch_primary_call_fails_sample :
  fetchAIOverview sample_Getenv (scripted [inl "Invalid API key."])
    "golang" world0
  = (Done (inl (SearchError "Invalid API key.")),
     after_calls world0 [primary "secret" "golang"]).
Proof.
  apply (fetch_primary_call_fails sample_Getenv
           (scripted [inl "Invalid API key."]) "golang" world0).
  reflexivity.
Defined.

Lemma fetch_secondary_call_fails_sample :
  fetchAIOverview sample_Getenv
    (scripted [inr token_response; inl "timeout"]) "golang" world0
  = (Done (inl (SearchError "timeout")),
     after_calls world0 [primary "secret" "golang";
                         secondary "secret" "tok"]).
Proof.
  apply (fetch_secondary_call_fails sample_Getenv
           (scripted [inr token_response; inl "timeout"]) "golang" world0
           token_response token_raw
           (SearchMetadata.mk "tok" "https://serpapi.com/search.json")).
  - reflexivity.
  - reflexivity.
  - intros overview [= <-]. reflexivity.
  - reflexivity.
  - reflexivity.
Defined.

Lemma fetch_secondary_decode_error_sample :
  fetchAIOverview sample_Getenv
    (scripted [inr token_response; inr {[ "ai_overview" := text_raw ]}])
    "golang" world0
  = (Done (inl UnmarshalTypeError),
     after_calls world0 [primary "secret" "golang";
                         secondary "secret" "tok"]).
Proof.
  apply (fetch_secondary_decode_error sample_Getenv
           (scripted [inr token_response;
                      inr {[ "ai_overview" := text_raw ]}])
           "golang" world0 token_response token_raw
           (SearchMetadata.mk "tok" "https://serpapi.com/search.json")
           {[ "ai_overview" := text_raw ]} text_raw).
  - reflexivity.
  - reflexivity.
  - intros overview [= <-]. reflexivity.
  - reflexivity.
  - reflexivity.
  - reflexivity.
  - reflexivity.
Defined.

Lemma fetch_success_cases_sample :
  (AIOverview.IsEmpty inline_overview = false
   ∧ calls (after_calls world0 [primary "secret" "golang"])
     = calls world0 ++ [primary "secret" "golang"])
  ∨ ∃ page_token,
      calls (after_calls world0 [primary "secret" "golang"])
      = calls world0 ++ [primary "secret" "golang";
                         secondary "secret" page_token].
Proof.
  apply (fetch_success_cases sample_Getenv (scripted [inr inline_response])
           "golang" world0 inline_overview
           (after_calls world0 [primary "secret" "golang"])).
  reflexivity.
Defined.

Lemma Unmarshal_AIOverview_lengths_sample :
  len (AIOverview.TextBlocks
         (AIOverview.mk
            (mkSlice [TextBlock.mk "paragraph" "" nil_slice nil_slice
                        nil_slice]
                     [TextBlock.zero])
            nil_slice ""))
  = final_length "text_blocks" repeated_members
  ∧ len (AIOverview.References
           (AIOverview.mk
              (mkSlice [TextBlock.mk "paragraph" "" nil_slice nil_slice
                          nil_slice]
                       [TextBlock.zero])
              nil_slice ""))
    = final_length "references" repeated_members.
Proof.
  apply (Unmarshal_AIOverview_lengths repeated_members).
  reflexivity.
Defined.

Lemma fetch_sends_page_token_sample :
  Parameter_ (secondary "secret" "tok") !! "page_token" = Some "tok"
  ∧ fetchAIOverview sample_Getenv
      (scripted [inr token_response; inr inline_response]) "golang" world0
    = (Done (inr inline_overview),
       after_calls world0 [primary "secret" "golang";
                           secondary "secret" "tok"]).
Proof.
  apply (fetch_sends_page_token sample_Getenv
           (scripted [inr token_response; inr inline_response])
           "golang" world0 token_response [] "page_token" "tok"
           token_raw_rest).
  - reflexivity.
  - reflexivity.
  - reflexivity.
  - intros k v Hin. unfold token_raw_rest in Hin. by members_cases Hin.
  - intros k v Hin _. unfold token_raw_rest in Hin. simpl in Hin.
    members_cases Hin; right; by eexists.
  - intros k v Hin. unfold token_raw_rest in Hin. simpl in Hin.
    by members_cases Hin.
Defined.

Lemma handler_responses_sample :
  StatusCode (mkResponse 200 (tmpl Title_ascii (mkPageData "" None)))
  = 200%nat
  ∧ ((Get bare_request "q" = "" ∧ world0 = world0
      ∧ Body (mkResponse 200 (tmpl Title_ascii (mkPageData "" None)))
        = tmpl Title_ascii (mkPageData "" None))
     ∨ (Get bare_request "q" ≠ ""
        ∧ ∃ ai,
            fetchAIOverview sample_Getenv (scripted [])
              (Get bare_request "q") world0
            = (Done (inr ai), world0)
            ∧ Body (mkResponse 200 (tmpl Title_ascii (mkPageData "" None)))
              = tmpl Title_ascii
                  (mkPageData (Get bare_request "q") (Some ai)))).
Proof.
  apply (handler_responses sample_Getenv (scripted []) Title_ascii
           bare_request world0).
  reflexivity.
Defined.

Lemma handler_renders_inline_overview_sample :
  handler sample_Getenv (scripted [inr inline_response]) Title_ascii
    golang_request world0
  = (Done (mkResponse 200
             (tmpl Title_ascii (mkPageData "golang" (Some inline_overview)))),
     after_calls world0 [primary "secret" "golang"]).
Proof.
  apply (handler_renders_inline_overview sample_Getenv
           (scripted [inr inline_response]) Title_ascii golang_request
           world0 inline_response inline_raw inline_overview).
  - done.
  - reflexivity.
  - reflexivity.
  - reflexivity.
  - reflexivity.
Defined.
